(** * Verification of the test-harness bootstrappers [serve.py] and [test/serve.py]

    Both scripts start a static HTTP file server on a local port, add three
    CORS headers to every response and open a browser tab.  This file embeds
    the two scripts as programs of a small state-and-exception monad over an
    explicit model of the operating system and of the Python library calls
    they make, and proves the properties of the specification about them.

    Layout:
    - Python values used by the scripts: exceptions, [int()] on strings,
      [pathlib] parents, string formatting;
    - [HTTP]: the header buffer of [http.server.BaseHTTPRequestHandler];
    - [World]: everything the scripts do not control;
    - the monad [M], its primitives ([TCPServer], [print], [os.chdir], ...);
    - [Serve] (src/serve.py) and [TestServe] (src/test/serve.py);
    - the theorems of the specification;
    - further properties of the probe, of the runs and of the header
      hook. *)

From Stdlib Require Import ZArith List String Ascii Bool Lia DecimalString.
Import ListNotations.
Open Scope Z_scope.

(* ================================================================= *)
(** * Python values *)

(** The exception classes that the scripts raise, catch or let through.
    [OtherException] stands for any other subclass of [Exception]
    (for example [webbrowser.Error]); it is not a subclass of [OSError]. *)
Inductive exn : Type :=
| OSError
| OverflowError
| ValueError
| KeyboardInterrupt
| SystemExit (code : Z)
| OtherException (name : string).

(** [except OSError:] *)
Definition except_OSError (e : exn) : bool :=
  match e with OSError => true | _ => false end.

(** [except KeyboardInterrupt:] *)
Definition except_KeyboardInterrupt (e : exn) : bool :=
  match e with KeyboardInterrupt => true | _ => false end.

(** A bare [except:] catches every [BaseException]. *)
Definition except_all (_ : exn) : bool := true.

(** What a call does: it returns a value, raises, or never comes back
    (only [serve_forever] can do the latter). *)
Inductive outcome (A : Type) : Type :=
| Returns (a : A)
| Raises (e : exn)
| Blocks.
Arguments Returns {A} a.
Arguments Raises {A} e.
Arguments Blocks {A}.

(** [str(n)] for an integer, as the f-strings of the scripts format ports. *)
Definition str (n : Z) : string := NilZero.string_of_int (Z.to_int n).

(** ** [int(s)] on a command-line argument

    [sys.argv] holds the arguments decoded from the bytes that the operating
    system passes, as UTF-8 with the [surrogateescape] error handler.  Then
    [int], with the defaults of CPython 3.11,
    - takes every white-space character above ASCII for a blank and every
      decimal digit of any script for its ASCII digit; any other character
      above ASCII, among them the surrogates that stand for bytes that are
      no UTF-8, makes the argument no integer;
    - skips ASCII white space on both sides, reads an optional sign and then
      decimal digits in which single underscores may separate digits;
    - refuses more than 4300 digits.

    The scripts are not verified against this function: each world brings
    its own [int] (see [int_of_argument] below), and the machines that the
    scripts are run on below use this one. *)
(** The bytes of an argument. *)
Definition byte_of (c : ascii) : Z := Z.of_N (N_of_ascii c).

(** UTF-8, as the decoder of CPython takes it: no overlong form, no
    surrogate, nothing above U+10FFFF.  [None] stands for a byte sequence
    that is no UTF-8. *)
Definition continuation (b : Z) : bool := (128 <=? b) && (b <=? 191).

Definition three_bytes (b0 b1 : Z) : bool :=
  ((b0 =? 224) && (160 <=? b1) && (b1 <=? 191)) ||
  ((225 <=? b0) && (b0 <=? 236) && continuation b1) ||
  ((b0 =? 237) && (128 <=? b1) && (b1 <=? 159)) ||
  ((238 <=? b0) && (b0 <=? 239) && continuation b1).

Definition four_bytes (b0 b1 : Z) : bool :=
  ((b0 =? 240) && (144 <=? b1) && (b1 <=? 191)) ||
  ((241 <=? b0) && (b0 <=? 243) && continuation b1) ||
  ((b0 =? 244) && (128 <=? b1) && (b1 <=? 143)).

Fixpoint utf8_decode (l : list Z) : option (list Z) :=
  match l with
  | [] => Some []
  | b0 :: r0 =>
      if b0 <? 128 then option_map (cons b0) (utf8_decode r0)
      else
        match r0 with
        | [] => None
        | b1 :: r1 =>
            if (194 <=? b0) && (b0 <=? 223) && continuation b1 then
              option_map (cons ((b0 - 192) * 64 + (b1 - 128))) (utf8_decode r1)
            else
              match r1 with
              | [] => None
              | b2 :: r2 =>
                  if three_bytes b0 b1 && continuation b2 then
                    option_map
                      (cons ((b0 - 224) * 4096 + (b1 - 128) * 64 + (b2 - 128)))
                      (utf8_decode r2)
                  else
                    match r2 with
                    | [] => None
                    | b3 :: r3 =>
                        if four_bytes b0 b1 && continuation b2 && continuation b3
                        then
                          option_map
                            (cons ((b0 - 240) * 262144 + (b1 - 128) * 4096
                                   + (b2 - 128) * 64 + (b3 - 128)))
                            (utf8_decode r3)
                        else None
                    end
              end
        end
  end.

(** The white-space characters above ASCII ([str.isspace]). *)
Definition unicode_space (c : Z) : bool :=
  existsb (Z.eqb c)
    [133; 160; 5760; 8192; 8193; 8194; 8195; 8196; 8197; 8198; 8199; 8200;
     8201; 8202; 8232; 8233; 8239; 8287; 12288].

(** The digits zero above ASCII of the Unicode character database of
    CPython 3.11 (Unicode 14.0): every decimal digit [d] of a script is the
    character [d] places after the zero of the script. *)
Definition decimal_zeros : list Z :=
  [ 1632; 1776; 1984; 2406; 2534; 2662; 2790; 2918;
    3046; 3174; 3302; 3430; 3558; 3664; 3792; 3872;
    4160; 4240; 6112; 6160; 6470; 6608; 6784; 6800;
    6992; 7088; 7232; 7248; 42528; 43216; 43264; 43472;
    43504; 43600; 44016; 65296; 66720; 68912; 69734; 69872;
    69942; 70096; 70384; 70736; 70864; 71248; 71360; 71472;
    71904; 72016; 72784; 73040; 73120; 92768; 92864; 93008;
    120782; 120792; 120802; 120812; 120822; 123200; 123632; 125264;
    130032 ].

Definition decimal_of (c : Z) : option Z :=
  option_map (fun zero => c - zero)
    (find (fun zero => (zero <=? c) && (c <? zero + 10)) decimal_zeros).

(** What [int] makes of a character before it reads the number: an ASCII
    character stays, white space becomes a blank, a decimal digit its
    ASCII digit; [None] for any other character. *)
Definition to_ascii (c : Z) : option Z :=
  if c <? 128 then Some c
  else if unicode_space c then Some 32
  else option_map (fun d => 48 + d) (decimal_of c).

Fixpoint all_to_ascii (l : list Z) : option (list Z) :=
  match l with
  | [] => Some []
  | c :: r =>
      match to_ascii c, all_to_ascii r with
      | Some a, Some r' => Some (a :: r')
      | _, _ => None
      end
  end.

(** The white space that [int] skips on both sides: tab, line feed,
    vertical tab, form feed, carriage return and blank. *)
Definition is_space (c : Z) : bool :=
  ((9 <=? c) && (c <=? 13)) || (c =? 32).

Definition digit_of (c : Z) : option Z :=
  if (48 <=? c) && (c <=? 57) then Some (c - 48) else None.

Fixpoint lstrip (l : list Z) : list Z :=
  match l with
  | c :: r => if is_space c then lstrip r else l
  | [] => []
  end.

Definition strip (l : list Z) : list Z :=
  rev (lstrip (rev (lstrip l))).

(** [after_digit] tells whether the previous character was a digit: an
    underscore (95) is legal only between two digits. *)
Fixpoint digits (acc : Z) (after_digit : bool) (l : list Z) : option Z :=
  match l with
  | [] => if after_digit then Some acc else None
  | c :: r =>
      match digit_of c with
      | Some d => digits (10 * acc + d) true r
      | None =>
          if (c =? 95) && after_digit then digits acc false r else None
      end
  end.

(** [sys.get_int_max_str_digits()], by default. *)
Definition int_max_str_digits : nat := 4300.

Definition digit_count (l : list Z) : nat :=
  List.length (filter (fun c => (48 <=? c) && (c <=? 57)) l).

(** An optional sign (45 is [-], 43 is [+]), then the digits. *)
Definition int_of_chars (l : list Z) : option Z :=
  let body := strip l in
  if (int_max_str_digits <? digit_count body)%nat then None
  else
    match body with
    | 45 :: r => option_map Z.opp (digits 0 false r)
    | 43 :: r => digits 0 false r
    | r => digits 0 false r
    end.

(** [int(s)] for the argument with bytes [s]; [None] stands for the
    [ValueError] that [int] raises. *)
Definition py_int (s : string) : option Z :=
  match utf8_decode (map byte_of (list_ascii_of_string s)) with
  | Some chars =>
      match all_to_ascii chars with
      | Some l => int_of_chars l
      | None => None
      end
  | None => None
  end.

(** ** [pathlib.Path] *)

(** A path is its anchor (absolute or not) and its components. *)
Record Path : Type := mkPath { absolute : bool; parts : list string }.

(** [Path.parent]: the last component is dropped; the root and the empty
    relative path are their own parents. *)
Definition parent (p : Path) : Path :=
  {| absolute := absolute p; parts := removelast (parts p) |}.

(** [range(a, b)] *)
Definition range (a b : Z) : list Z :=
  map (fun i => a + Z.of_nat i) (seq 0 (Z.to_nat (b - a))).

(* ================================================================= *)
(** * The request handler of [http.server] *)

Module HTTP.

Definition CRLF : string :=
  String (ascii_of_nat 13) (String (ascii_of_nat 10) EmptyString).

(** A request: the request line as [self.rfile.readline(65537)] gives it,
    its bytes read as ISO-8859-1; the empty string when the connection was
    closed without one. *)
Record request : Type := { raw_requestline : string }.

(** [str.isspace] for the characters of ISO-8859-1. *)
Definition str_space (c : Z) : bool :=
  ((9 <=? c) && (c <=? 13)) || ((28 <=? c) && (c <=? 32)) ||
  (c =? 133) || (c =? 160).

(** [requestline.rstrip('\r\n')], from the end of the line. *)
Fixpoint drop_line_end (l : list Z) : list Z :=
  match l with
  | c :: r => if (c =? 13) || (c =? 10) then drop_line_end r else l
  | [] => []
  end.

Definition rstrip_line (l : list Z) : list Z := rev (drop_line_end (rev l)).

(** [requestline.split()]; [word] is the word being read, backwards. *)
Fixpoint split_words (word : list Z) (l : list Z) : list (list Z) :=
  match l with
  | [] => match word with [] => [] | _ => [rev word] end
  | c :: r =>
      if str_space c then
        match word with
        | [] => split_words [] r
        | _ => rev word :: split_words [] r
        end
      else split_words (c :: word) r
  end.

(** [text.split(sep)] for a one-character separator; [part] is the part
    being read, backwards. *)
Fixpoint split_on (sep : Z) (part : list Z) (l : list Z) : list (list Z) :=
  match l with
  | [] => [rev part]
  | c :: r =>
      if c =? sep then rev part :: split_on sep [] r
      else split_on sep (c :: part) r
  end.

(** [l.startswith(p)] *)
Fixpoint starts (p l : list Z) : bool :=
  match p, l with
  | [], _ => true
  | a :: p', b :: l' => (a =? b) && starts p' l'
  | _ :: _, [] => false
  end.

(** [int] on a piece of the request line. *)
Definition int_of_text (l : list Z) : option Z :=
  match all_to_ascii l with
  | Some a => int_of_chars a
  | None => None
  end.

(** The version number that [parse_request] reads from the last word of the
    request line; [None] stands for its [ValueError]. *)
Definition version_number (version : list Z) : option (Z * Z) :=
  if starts [72; 84; 84; 80; 47] version then
    match split_on 46 [] (skipn 5 version) with
    | [major; minor] =>
        match int_of_text major, int_of_text minor with
        | Some x, Some y => Some (x, y)
        | _, _ => None
        end
    | _ => None
    end
  else None.

(** The string of the characters [l]. *)
Definition text (l : list Z) : string :=
  string_of_list_ascii (map (fun c => ascii_of_N (Z.to_N c)) l).

(** [self.request_version] when the reply to the request line [raw] is
    made ([handle_one_request] and [parse_request] of the library): empty
    for a line of more than 65536 bytes; the last word of a line of three
    words or more when it is [HTTP/<int>.<int>] below (2, 0); the default
    ['HTTP/0.9'] in every other case, among them the two-word request line
    and the error replies to a one-word line and to a malformed or
    unsupported version. *)
Definition request_version_of (raw : string) : string :=
  let line := map byte_of (list_ascii_of_string raw) in
  if 65536 <? Z.of_nat (List.length line) then EmptyString
  else
    let words := split_words [] (rstrip_line line) in
    if (3 <=? List.length words)%nat then
      let version := last words [] in
      match version_number version with
      | Some (x, y) =>
          if (2 <? x) || ((x =? 2) && (0 <=? y)) then "HTTP/0.9"%string
          else text version
      | None => "HTTP/0.9"%string
      end
    else "HTTP/0.9"%string.

(** Whether the handler writes anything for the request line [raw]: it
    answers an over-long line with an error, and returns without a reply
    when there is no line ([if not self.raw_requestline]) and when the line
    has no word ([if len(words) == 0: return False]). *)
Definition answered (raw : string) : bool :=
  let line := map byte_of (list_ascii_of_string raw) in
  (65536 <? Z.of_nat (List.length line)) ||
  match split_words [] (rstrip_line line) with
  | [] => false
  | _ :: _ => true
  end.

(** What the handler decided to answer: status line, the headers it sends
    itself and the body ([None] for a response without body). *)
Record reply : Type :=
  { status : Z;
    reason : string;
    headers : list (string * string);
    body : option string }.

(** The fields of a handler instance that sending headers touches.
    [version_string] and [date_time_string] are the values of the methods
    of these names for this request. *)
Record handler : Type :=
  { request_version : string;
    version_string : string;
    date_time_string : string;
    headers_buffer : list string;
    wfile : list string;
    close_connection : bool }.

Definition set_buffer (b : list string) (h : handler) : handler :=
  {| request_version := request_version h;
     version_string := version_string h;
     date_time_string := date_time_string h;
     headers_buffer := b;
     wfile := wfile h;
     close_connection := close_connection h |}.

Definition write (chunk : string) (h : handler) : handler :=
  {| request_version := request_version h;
     version_string := version_string h;
     date_time_string := date_time_string h;
     headers_buffer := headers_buffer h;
     wfile := wfile h ++ [chunk];
     close_connection := close_connection h |}.

Definition set_close (c : bool) (h : handler) : handler :=
  {| request_version := request_version h;
     version_string := version_string h;
     date_time_string := date_time_string h;
     headers_buffer := headers_buffer h;
     wfile := wfile h;
     close_connection := c |}.

Definition lower_char (c : ascii) : ascii :=
  let n := nat_of_ascii c in
  if ((65 <=? n) && (n <=? 90))%nat then ascii_of_nat (n + 32) else c.

Fixpoint lower (s : string) : string :=
  match s with
  | EmptyString => EmptyString
  | String c r => String (lower_char c) (lower r)
  end.

(** [self.request_version != 'HTTP/0.9'] *)
Definition has_headers (h : handler) : bool :=
  negb (String.eqb (request_version h) "HTTP/0.9").

(** [SimpleHTTPRequestHandler.protocol_version] *)
Definition protocol_version : string := "HTTP/1.0".

(** [BaseHTTPRequestHandler.send_response_only] *)
Definition send_response_only (code : Z) (message : string) (h : handler)
  : handler :=
  if has_headers h then
    set_buffer
      (headers_buffer h ++
         [(protocol_version ++ " " ++ str code ++ " " ++ message ++ CRLF)%string])
      h
  else h.

(** [BaseHTTPRequestHandler.send_header] *)
Definition send_header (keyword value : string) (h : handler) : handler :=
  let h1 :=
    if has_headers h then
      set_buffer
        (headers_buffer h ++ [(keyword ++ ": " ++ value ++ CRLF)%string]) h
    else h in
  if String.eqb (lower keyword) "connection" then
    if String.eqb (lower value) "close" then set_close true h1
    else if String.eqb (lower value) "keep-alive" then set_close false h1
    else h1
  else h1.

(** [BaseHTTPRequestHandler.flush_headers] *)
Definition flush_headers (h : handler) : handler :=
  set_buffer [] (write (String.concat "" (headers_buffer h)) h).

(** [BaseHTTPRequestHandler.end_headers] *)
Definition end_headers (h : handler) : handler :=
  if has_headers h then
    flush_headers (set_buffer (headers_buffer h ++ [CRLF]) h)
  else h.

(** [BaseHTTPRequestHandler.send_response] (logging left out) *)
Definition send_response (code : Z) (message : string) (h : handler)
  : handler :=
  send_header "Date" (date_time_string h)
    (send_header "Server" (version_string h)
       (send_response_only code message h)).

(** A handler class, as far as the scripts see it: the method they
    override, and the decision of the class which reply answers a request
    when files are served from directory [dir] (the work of [do_GET],
    [do_HEAD], [translate_path], [send_head] and [send_error]). *)
Record HandlerClass : Type :=
  { cls_end_headers : handler -> handler;
    cls_reply : Path -> request -> reply }.

Definition send_headers (hs : list (string * string)) (h : handler)
  : handler :=
  fold_left (fun acc kv => send_header (fst kv) (snd kv) acc) hs h.

Definition write_body (b : option string) (h : handler) : handler :=
  match b with Some chunk => write chunk h | None => h end.

(** A reply written by an instance of class [C]: every reply of the
    library, error replies included, is [send_response], its own
    [send_header] calls, then [self.end_headers()] (dispatched on the class
    of the instance), then the body; [self.request_version] is what
    [parse_request] has made of the request line by then.  The result is
    what was written to the connection. *)
Definition write_reply (C : HandlerClass) (version date : string)
    (dir : Path) (r : request) : list string :=
  let self :=
    {| request_version := request_version_of (raw_requestline r);
       version_string := version;
       date_time_string := date;
       headers_buffer := [];
       wfile := [];
       close_connection := true |} in
  let a := cls_reply C dir r in
  wfile
    (write_body (body a)
       (cls_end_headers C
          (send_headers (headers a)
             (send_response (status a) (reason a) self)))).

(** One request handled by class [C]. *)
Definition handle_one_request (C : HandlerClass) (version date : string)
    (dir : Path) (r : request) : list string :=
  if answered (raw_requestline r) then write_reply C version date dir r
  else [].

End HTTP.

(* ================================================================= *)
(** * The world outside the scripts *)

(** Everything the scripts read or call but do not decide:
    - [argv]: [sys.argv], each argument as its bytes; [script_file]:
      [__file__]; [environ]: [os.environ];
    - [int_of_argument s]: what the builtin [int] makes of the argument
      with bytes [s], its value, or [None] when it raises [ValueError];
    - [bind_refused t p]: whether the operating system refuses, at the
      [t]-th socket the process creates, to bind port [p] (address in use,
      permission denied); it may change between two binds, since other
      processes bind and release ports at any time;
    - [ephemeral_port t]: the port the kernel picks when port 0 is bound;
    - [browser url]: what [webbrowser.open(url)] does;
    - [static_files]: the reply of [SimpleHTTPRequestHandler] to a request
      when serving from a directory; [version], [date]: its stamps;
    - [incoming]: the request lines that the server reads while it accepts;
    - [serve_ends]: the exception that ends [serve_forever], if any.

    The directory of the running script and its parent are taken to exist,
    so [os.chdir] to them succeeds; [print] succeeds. *)
Record World : Type :=
  { argv : list string;
    int_of_argument : string -> option Z;
    script_file : Path;
    environ : list (string * string);
    bind_refused : nat -> Z -> bool;
    ephemeral_port : nat -> Z;
    browser : string -> outcome bool;
    static_files : Path -> HTTP.request -> HTTP.reply;
    version : string;
    date : string;
    incoming : list HTTP.request;
    serve_ends : option exn }.

(** [socket.bind] raises [OverflowError] for a port outside 0..65535. *)
Definition valid_port (p : Z) : bool := (0 <=? p) && (p <=? 65535).

(** A port that can be bound as itself when socket number [t] is created:
    a real port number (0 is the wildcard, not a port) that the operating
    system does not refuse. *)
Definition port_free (w : World) (t : nat) (p : Z) : bool :=
  (1 <=? p) && (p <=? 65535) && negb (bind_refused w t p).

(** A port whose bind the operating system refuses with [OSError]. *)
Definition port_busy (w : World) (t : nat) (p : Z) : bool :=
  valid_port p && bind_refused w t p.

(* ================================================================= *)
(** * Effects *)

(** What a run did, in order. [EvBind port with_handler result] is one
    [socketserver.TCPServer(("", port), handler)] construction: [result] is
    the port the socket got, or the exception.  [EvServe] is the entry into
    [serve_forever] with the working directory of that moment, and
    [EvResponse] one response written to a connection. *)
Inductive event : Type :=
| EvBind (port : Z) (with_handler : bool) (result : Z + exn)
| EvClose (bound : Z)
| EvPrint (text : string)
| EvChdir (dir : Path)
| EvBrowser (url : string)
| EvServe (bound : Z) (dir : Path)
| EvResponse (req : HTTP.request) (wire : list string).

(** The process state: how many sockets were created so far, the ports this
    process listens on, the working directory, and the log. *)
Record state : Type :=
  { clock : nat;
    listening : list Z;
    cwd : Path;
    trace : list event }.

Definition log (e : event) (s : state) : state :=
  {| clock := clock s; listening := listening s; cwd := cwd s;
     trace := trace s ++ [e] |}.

(** A fresh process started in directory [dir]. *)
Definition start (dir : Path) : state :=
  {| clock := 0; listening := []; cwd := dir; trace := [] |}.

(** ** The monad of the scripts *)

Definition M (A : Type) : Type := state -> outcome A * state.

Definition ret {A : Type} (a : A) : M A := fun s => (Returns a, s).

Definition bind {A B : Type} (m : M A) (k : A -> M B) : M B :=
  fun s =>
    match m s with
    | (Returns a, s') => k a s'
    | (Raises e, s') => (Raises e, s')
    | (Blocks, s') => (Blocks, s')
    end.

Definition raise {A : Type} (e : exn) : M A := fun s => (Raises e, s).

Declare Scope py_scope.
Delimit Scope py_scope with py.
Notation "x <- m ;; k" := (bind m (fun x => k))
  (at level 61, m at next level, right associativity) : py_scope.
Notation "m ;; k" := (bind m (fun _ => k))
  (at level 61, right associativity) : py_scope.
Open Scope py_scope.

(** [try: body / except <class>: handler] *)
Definition try_except {A : Type} (body : M A) (catches : exn -> bool)
    (handler : M A) : M A :=
  fun s =>
    match body s with
    | (Raises e, s') => if catches e then handler s' else (Raises e, s')
    | r => r
    end.

(** [print(text)] *)
Definition print (text : string) : M unit :=
  fun s => (Returns tt, log (EvPrint text) s).

(** [sys.exit(code)] *)
Definition sys_exit {A : Type} (code : Z) : M A := raise (SystemExit code).

(** [os.chdir(dir)] *)
Definition chdir (dir : Path) : M unit :=
  fun s =>
    (Returns tt,
     {| clock := clock s; listening := listening s; cwd := dir;
        trace := trace s ++ [EvChdir dir] |}).

(** A [TCPServer] object: the port its socket is bound to, and its request
    handler class ([None] in Python as well for the probe). *)
Record server : Type :=
  { server_address : Z;
    RequestHandlerClass : option HTTP.HandlerClass }.

(** The state after a socket was created and its bind failed with [e], after
    it was bound to [bound], and after the socket on [bound] was closed. *)
Definition refused (port : Z) (h : bool) (e : exn) (s : state) : state :=
  {| clock := S (clock s); listening := listening s; cwd := cwd s;
     trace := trace s ++ [EvBind port h (inr e)] |}.

Definition accepted (port : Z) (h : bool) (bound : Z) (s : state) : state :=
  {| clock := S (clock s); listening := bound :: listening s; cwd := cwd s;
     trace := trace s ++ [EvBind port h (inl bound)] |}.

Fixpoint remove_first (p : Z) (l : list Z) : list Z :=
  match l with
  | [] => []
  | q :: r => if q =? p then r else q :: remove_first p r
  end.

Definition closed (bound : Z) (s : state) : state :=
  {| clock := clock s; listening := remove_first bound (listening s);
     cwd := cwd s; trace := trace s ++ [EvClose bound] |}.

Definition is_some {A : Type} (o : option A) : bool :=
  match o with Some _ => true | None => false end.

Section Primitives.

Variable w : World.

(** [int(sys.argv[1])] *)
Definition int (s : string) : M Z :=
  match int_of_argument w s with
  | Some n => ret n
  | None => raise ValueError
  end.

(** [socketserver.TCPServer(("", port), handler)]: the constructor creates
    a socket, binds and listens; on an exception it closes the socket and
    re-raises. *)
Definition TCPServer (port : Z) (handler : option HTTP.HandlerClass)
  : M server :=
  fun s =>
    if negb (valid_port port) then
      (Raises OverflowError, refused port (is_some handler) OverflowError s)
    else if bind_refused w (clock s) port then
      (Raises OSError, refused port (is_some handler) OSError s)
    else
      let bound := if port =? 0 then ephemeral_port w (clock s) else port in
      (Returns {| server_address := bound; RequestHandlerClass := handler |},
       accepted port (is_some handler) bound s).

(** [server_close()] *)
Definition server_close (srv : server) : M unit :=
  fun s => (Returns tt, closed (server_address srv) s).

(** [with socketserver.TCPServer(("", port), handler) as httpd: body]:
    [__exit__] closes the server whether the body returns or raises. *)
Definition with_TCPServer {A : Type} (port : Z)
    (handler : option HTTP.HandlerClass) (body : server -> M A) : M A :=
  fun s =>
    match TCPServer port handler s with
    | (Returns httpd, s1) =>
        match body httpd s1 with
        | (Blocks, s2) => (Blocks, s2)
        | (r, s2) => (r, snd (server_close httpd s2))
        end
    | (Raises e, s1) => (Raises e, s1)
    | (Blocks, s1) => (Blocks, s1)
    end.

(** [webbrowser.open(url)] *)
Definition webbrowser_open (url : string) : M bool :=
  fun s => (browser w url, log (EvBrowser url) s).

Definition respond (srv : server) (dir : Path) (s : state)
    (r : HTTP.request) : state :=
  match RequestHandlerClass srv with
  | Some C =>
      log (EvResponse r
             (HTTP.handle_one_request C (version w) (date w) dir r)) s
  | None => s
  end.

(** [httpd.serve_forever()]: the requests that arrive are answered, one
    after the other, by instances of the handler class, until an exception
    ends the loop, if one does. *)
Definition serve_forever (httpd : server) : M unit :=
  fun s =>
    let s1 := log (EvServe (server_address httpd) (cwd s)) s in
    let s2 := fold_left (respond httpd (cwd s)) (incoming w) s1 in
    match serve_ends w with
    | Some e => (Raises e, s2)
    | None => (Blocks, s2)
    end.

(** [SimpleHTTPRequestHandler] in this world. *)
Definition SimpleHTTPRequestHandler : HTTP.HandlerClass :=
  {| HTTP.cls_end_headers := HTTP.end_headers;
     HTTP.cls_reply := static_files w |}.

End Primitives.

(* ================================================================= *)
(** * The process around [main()] *)

(** The exit status of the interpreter once [main()] is over: 0 when it
    returns, the code of an uncaught [SystemExit], the status of a process
    killed by SIGINT for an uncaught [KeyboardInterrupt], and 1 (after a
    traceback on standard error) for any other uncaught exception.  A run
    that blocks has no exit status. *)
Definition exit_status (r : outcome unit) : option Z :=
  match r with
  | Returns _ => Some 0
  | Raises (SystemExit code) => Some (code mod 256)
  | Raises KeyboardInterrupt => Some 130
  | Raises _ => Some 1
  | Blocks => None
  end.

(** The exception that leaves [main()] uncaught, if one does. *)
Definition unhandled (r : outcome unit) : option exn :=
  match r with Raises e => Some e | _ => None end.

(** The lines printed, the directory changes, the sockets constructed and
    the responses of a run, in order. *)
Definition printed (tr : list event) : list string :=
  flat_map (fun e => match e with EvPrint t => [t] | _ => [] end) tr.

Definition chdirs (tr : list event) : list Path :=
  flat_map (fun e => match e with EvChdir d => [d] | _ => [] end) tr.

Definition binds (tr : list event) : list (Z * bool * (Z + exn)) :=
  flat_map (fun e => match e with
                     | EvBind p h r => [(p, h, r)]
                     | _ => []
                     end) tr.

Definition responses (tr : list event) : list (HTTP.request * list string) :=
  flat_map (fun e => match e with
                     | EvResponse r wire => [(r, wire)]
                     | _ => []
                     end) tr.

(** The ports on which a bind was attempted by the probe (no handler). *)
Definition probed (tr : list event) : list Z :=
  flat_map (fun e => match e with
                     | EvBind p false _ => [p]
                     | _ => []
                     end) tr.

(* ================================================================= *)
(** * src/serve.py *)

Module Serve.

Section Script.

Variable w : World.

(** [CORSRequestHandler.end_headers]; [super_end_headers] is
    [super().end_headers], the method of [Handler]. *)
Definition end_headers (super_end_headers : HTTP.handler -> HTTP.handler)
    (self : HTTP.handler) : HTTP.handler :=
  let self := HTTP.send_header "Access-Control-Allow-Origin" "*" self in
  let self :=
    HTTP.send_header "Access-Control-Allow-Methods" "GET, POST, OPTIONS"
      self in
  let self := HTTP.send_header "Access-Control-Allow-Headers" "*" self in
  super_end_headers self.

(** [class CORSRequestHandler(Handler)]: only [end_headers] is
    overridden, everything else is inherited. *)
Definition CORSRequestHandler (Handler : HTTP.HandlerClass)
  : HTTP.HandlerClass :=
  {| HTTP.cls_end_headers := end_headers (HTTP.cls_end_headers Handler);
     HTTP.cls_reply := HTTP.cls_reply Handler |}.

Definition main : M unit :=
  port <- (if (1 <? List.length (argv w))%nat
           then int w (nth 1 (argv w) ""%string)
           else ret 8000) ;;
  (* Change to the script's directory *)
  let script_dir := parent (script_file w) in
  chdir script_dir ;;
  let Handler := SimpleHTTPRequestHandler w in
  with_TCPServer w port (Some (CORSRequestHandler Handler)) (fun httpd =>
    print ("Serving at http://localhost:" ++ str port ++ "/") ;;
    print ("Open test page: http://localhost:" ++ str port ++ "/test.html") ;;
    (* Auto-open browser *)
    try_except
      (webbrowser_open w ("http://localhost:" ++ str port ++ "/test.html") ;;
       ret tt)
      except_all
      (ret tt) ;;
    print "Press Ctrl+C to stop the server" ;;
    try_except
      (serve_forever w httpd)
      except_KeyboardInterrupt
      (print (String (ascii_of_nat 10) "Server stopped."))).

End Script.

End Serve.

(* ================================================================= *)
(** * src/test/serve.py *)

Module TestServe.

Section Script.

Variable w : World.

(** The body of the [for] loop of [find_free_port], over the ports that
    are left: [return port] inside the [with] closes the probe socket on
    the way out, [continue] goes on with the next port. *)
Fixpoint find_free_port_loop (ports : list Z) : M (option Z) :=
  match ports with
  | [] => ret None
  | port :: rest =>
      try_except
        (with_TCPServer w port None (fun _ => ret (Some port)))
        except_OSError
        (find_free_port_loop rest)
  end.

(** [find_free_port(start_port=8000, max_attempts=10)] *)
Definition find_free_port (start_port max_attempts : Z) : M (option Z) :=
  find_free_port_loop (range start_port (start_port + max_attempts)).

Definition end_headers (super_end_headers : HTTP.handler -> HTTP.handler)
    (self : HTTP.handler) : HTTP.handler :=
  let self := HTTP.send_header "Access-Control-Allow-Origin" "*" self in
  let self :=
    HTTP.send_header "Access-Control-Allow-Methods" "GET, POST, OPTIONS"
      self in
  let self := HTTP.send_header "Access-Control-Allow-Headers" "*" self in
  super_end_headers self.

Definition CORSRequestHandler (Handler : HTTP.HandlerClass)
  : HTTP.HandlerClass :=
  {| HTTP.cls_end_headers := end_headers (HTTP.cls_end_headers Handler);
     HTTP.cls_reply := HTTP.cls_reply Handler |}.

Definition main : M unit :=
  requested_port <- (if (1 <? List.length (argv w))%nat
                     then int w (nth 1 (argv w) ""%string)
                     else ret 8000) ;;
  (* Find an available port *)
  found <- find_free_port requested_port 10 ;;
  port <- match found with
          | None =>
              print ("Error: Could not find an available port starting from "
                       ++ str requested_port) ;;
              sys_exit 1
          | Some port => ret port
          end ;;
  (if negb (port =? requested_port)
   then print ("Port " ++ str requested_port ++ " is in use, using port "
                 ++ str port ++ " instead")
   else ret tt) ;;
  (* Change to the project root directory (parent of test folder) *)
  let script_dir := parent (script_file w) in
  let project_root := parent script_dir in
  chdir project_root ;;
  let Handler := SimpleHTTPRequestHandler w in
  with_TCPServer w port (Some (CORSRequestHandler Handler)) (fun httpd =>
    print ("Serving at http://localhost:" ++ str port ++ "/") ;;
    print ("Open test page: http://localhost:" ++ str port
             ++ "/test/test.html") ;;
    (* Auto-open browser *)
    try_except
      (webbrowser_open w
         ("http://localhost:" ++ str port ++ "/test/test.html") ;;
       ret tt)
      except_all
      (ret tt) ;;
    print "Press Ctrl+C to stop the server" ;;
    try_except
      (serve_forever w httpd)
      except_KeyboardInterrupt
      (print (String (ascii_of_nat 10) "Server stopped."))).

End Script.

End TestServe.

(** A run of a script: [main()] in a fresh process started in [dir]. *)
Definition run (main : World -> M unit) (w : World) (dir : Path)
  : outcome unit * state :=
  main w (start dir).

(** ** Worlds to run the scripts in *)

Definition slash (l : list string) : Path := mkPath true l.

(** A quiet machine: nothing refuses a bind, the browser opens, two requests
    arrive, [GET /test.html HTTP/1.1] and the two-word [GET /missing], and
    then Ctrl+C is pressed. *)
Definition quiet (args : list string) : World :=
  {| argv := args;
     int_of_argument := py_int;
     script_file := slash ["repo"; "test"; "serve.py"]%string;
     environ := [];
     bind_refused := fun _ _ => false;
     ephemeral_port := fun _ => 49152;
     browser := fun _ => Returns true;
     static_files := fun _ r =>
       if String.eqb (HTTP.raw_requestline r)
            ("GET /test.html HTTP/1.1" ++ HTTP.CRLF)
       then {| HTTP.status := 200; HTTP.reason := "OK";
               HTTP.headers := [("Content-type", "text/html")]%string;
               HTTP.body := Some "<html></html>"%string |}
       else {| HTTP.status := 404; HTTP.reason := "File not found";
               HTTP.headers := [("Connection", "close")]%string;
               HTTP.body := Some "Not found"%string |};
     version := "SimpleHTTP/0.6 Python/3.11.2";
     date := "Wed, 04 Nov 2026 00:00:00 GMT";
     incoming :=
       [ {| HTTP.raw_requestline := "GET /test.html HTTP/1.1" ++ HTTP.CRLF |};
         {| HTTP.raw_requestline := "GET /missing" ++ HTTP.CRLF |} ]%string;
     serve_ends := Some KeyboardInterrupt |}.

(** The same machine where the operating system refuses the binds that
    [refused] selects. *)
Definition crowded (args : list string) (refused : nat -> Z -> bool) : World :=
  {| argv := args;
     int_of_argument := py_int;
     script_file := script_file (quiet args);
     environ := [];
     bind_refused := refused;
     ephemeral_port := ephemeral_port (quiet args);
     browser := browser (quiet args);
     static_files := static_files (quiet args);
     version := version (quiet args);
     date := date (quiet args);
     incoming := incoming (quiet args);
     serve_ends := serve_ends (quiet args) |}.


(* ================================================================= *)
(** * Reading a log *)

Lemma printed_app (a b : list event) : printed (a ++ b) = (printed a ++ printed b)%list.
Proof. apply flat_map_app. Qed.

Lemma chdirs_app (a b : list event) : chdirs (a ++ b) = (chdirs a ++ chdirs b)%list.
Proof. apply flat_map_app. Qed.

Lemma binds_app (a b : list event) : binds (a ++ b) = (binds a ++ binds b)%list.
Proof. apply flat_map_app. Qed.

Lemma responses_app (a b : list event) :
  responses (a ++ b) = (responses a ++ responses b)%list.
Proof. apply flat_map_app. Qed.

Lemma probed_app (a b : list event) : probed (a ++ b) = (probed a ++ probed b)%list.
Proof. apply flat_map_app. Qed.

(** The entries into [serve_forever] in a log. *)
Definition serves (tr : list event) : list (Z * Path) :=
  flat_map (fun e => match e with EvServe b d => [(b, d)] | _ => [] end) tr.

Lemma serves_app (a b : list event) : serves (a ++ b) = (serves a ++ serves b)%list.
Proof. apply flat_map_app. Qed.

Create Rewrite HintDb log.
#[global] Hint Rewrite printed_app chdirs_app binds_app responses_app probed_app
  serves_app : log.

(* ================================================================= *)
(** * One socket *)

(** The bind of port [p] by socket number [t] succeeds. *)
Definition bindable (w : World) (t : nat) (p : Z) : bool :=
  valid_port p && negb (bind_refused w t p).

(** The port a successful bind of [p] gives to socket number [t]. *)
Definition bound_port (w : World) (t : nat) (p : Z) : Z :=
  if p =? 0 then ephemeral_port w t else p.

Lemma port_free_bindable (w : World) (t : nat) (p : Z) :
  port_free w t p = true -> bindable w t p = true /\ bound_port w t p = p.
Proof.
  unfold port_free, bindable, bound_port, valid_port. intros H.
  apply andb_prop in H as [H Hr]. apply andb_prop in H as [H1 H2].
  apply Z.leb_le in H1. apply Z.leb_le in H2. rewrite Hr.
  replace (0 <=? p) with true by (symmetry; apply Z.leb_le; lia).
  replace (p <=? 65535) with true by (symmetry; apply Z.leb_le; lia).
  replace (p =? 0) with false by (symmetry; apply Z.eqb_neq; lia).
  auto.
Qed.

Lemma TCPServer_busy (w : World) (p : Z) (h : option HTTP.HandlerClass) (s : state) :
  port_busy w (clock s) p = true ->
  TCPServer w p h s = (Raises OSError, refused p (is_some h) OSError s).
Proof.
  unfold port_busy, TCPServer. intros H. apply andb_prop in H as [Hv Hr].
  rewrite Hv, Hr. reflexivity.
Qed.

Lemma TCPServer_invalid (w : World) (p : Z) (h : option HTTP.HandlerClass) (s : state) :
  valid_port p = false ->
  TCPServer w p h s = (Raises OverflowError, refused p (is_some h) OverflowError s).
Proof. unfold TCPServer. intros ->. reflexivity. Qed.

Lemma TCPServer_bindable (w : World) (p : Z) (h : option HTTP.HandlerClass) (s : state) :
  bindable w (clock s) p = true ->
  TCPServer w p h s =
  (Returns {| server_address := bound_port w (clock s) p;
              RequestHandlerClass := h |},
   accepted p (is_some h) (bound_port w (clock s) p) s).
Proof.
  unfold bindable, TCPServer, bound_port. intros H. apply andb_prop in H as [Hv Hr].
  rewrite Hv. apply negb_true_iff in Hr. rewrite Hr. reflexivity.
Qed.

(** The three ways a bind can go. *)
Lemma bind_cases (w : World) (t : nat) (p : Z) :
  valid_port p = false \/ port_busy w t p = true \/ bindable w t p = true.
Proof.
  unfold port_busy, bindable. destruct (valid_port p); auto.
  destruct (bind_refused w t p); auto.
Qed.

Lemma remove_first_head (b : Z) (l : list Z) : remove_first b (b :: l) = l.
Proof. simpl. rewrite Z.eqb_refl. reflexivity. Qed.

(* ================================================================= *)
(** * The probe loop *)

Section Probe.

Variable w : World.

Lemma find_free_port_loop_busy (p : Z) (rest : list Z) (s : state) :
  port_busy w (clock s) p = true ->
  TestServe.find_free_port_loop w (p :: rest) s =
  TestServe.find_free_port_loop w rest (refused p false OSError s).
Proof.
  intros H. simpl. unfold try_except, with_TCPServer.
  rewrite (TCPServer_busy _ _ _ _ H). reflexivity.
Qed.

Lemma find_free_port_loop_invalid (p : Z) (rest : list Z) (s : state) :
  valid_port p = false ->
  TestServe.find_free_port_loop w (p :: rest) s =
  (Raises OverflowError, refused p false OverflowError s).
Proof.
  intros H. simpl. unfold try_except, with_TCPServer.
  rewrite (TCPServer_invalid _ _ _ _ H). reflexivity.
Qed.

Lemma find_free_port_loop_bindable (p : Z) (rest : list Z) (s : state) :
  bindable w (clock s) p = true ->
  TestServe.find_free_port_loop w (p :: rest) s =
  (Returns (Some p),
   closed (bound_port w (clock s) p)
     (accepted p false (bound_port w (clock s) p) s)).
Proof.
  intros H. simpl. unfold try_except, with_TCPServer.
  rewrite (TCPServer_bindable _ _ _ _ H). reflexivity.
Qed.

(** The candidates number [a], [a+1], ..., [a+k-1] counted from [P]. *)
Definition candidates (P : Z) (a k : nat) : list Z :=
  map (fun i => P + Z.of_nat i) (seq a k).

(** The state after the binds of the ports [ps] were refused one by one. *)
Definition all_refused (ps : list Z) (s : state) : state :=
  fold_left (fun st p => refused p false OSError st) ps s.

Lemma all_refused_clock (ps : list Z) : forall s,
  clock (all_refused ps s) = (clock s + List.length ps)%nat.
Proof.
  induction ps as [|p ps IH]; intros s; simpl.
  - lia.
  - unfold all_refused in IH. rewrite IH. simpl. lia.
Qed.

Lemma all_refused_listening (ps : list Z) : forall s,
  listening (all_refused ps s) = listening s.
Proof.
  induction ps as [|p ps IH]; intros s; simpl; [reflexivity|].
  unfold all_refused in IH. rewrite IH. reflexivity.
Qed.

Lemma all_refused_cwd (ps : list Z) : forall s,
  cwd (all_refused ps s) = cwd s.
Proof.
  induction ps as [|p ps IH]; intros s; simpl; [reflexivity|].
  unfold all_refused in IH. rewrite IH. reflexivity.
Qed.

Lemma all_refused_trace (ps : list Z) : forall s,
  trace (all_refused ps s) =
  (trace s ++ map (fun p => EvBind p false (inr OSError)) ps)%list.
Proof.
  induction ps as [|p ps IH]; intros s; simpl.
  - now rewrite app_nil_r.
  - unfold all_refused in IH. rewrite IH. simpl. now rewrite <- app_assoc.
Qed.

Lemma candidates_length (P : Z) (a k : nat) : List.length (candidates P a k) = k.
Proof. unfold candidates. now rewrite length_map, length_seq. Qed.

Lemma candidates_S (P : Z) (a k : nat) :
  candidates P a (S k) = (P + Z.of_nat a) :: candidates P (S a) k.
Proof. reflexivity. Qed.

Lemma candidates_app (P : Z) (a k n : nat) :
  candidates P a (k + n) = (candidates P a k ++ candidates P (a + k) n)%list.
Proof. unfold candidates. now rewrite seq_app, map_app. Qed.

Lemma range_candidates (P n : Z) :
  range P (P + n) = candidates P 0 (Z.to_nat n).
Proof. unfold range, candidates. now replace (P + n - P) with n by lia. Qed.

(** As long as the operating system refuses the binds, the loop goes on. *)
Lemma find_free_port_loop_skip (P : Z) (k : nat) : forall (a : nat) (rest : list Z) (s : state),
  (forall i, (i < k)%nat ->
     port_busy w (clock s + i) (P + Z.of_nat (a + i)) = true) ->
  TestServe.find_free_port_loop w (candidates P a k ++ rest) s =
  TestServe.find_free_port_loop w rest (all_refused (candidates P a k) s).
Proof.
  induction k as [|k IH]; intros a rest s H.
  - reflexivity.
  - rewrite candidates_S. rewrite <- app_comm_cons.
    rewrite find_free_port_loop_busy.
    + rewrite IH; [reflexivity|]. intros i Hi.
      specialize (H (S i) ltac:(lia)).
      change (clock (refused (P + Z.of_nat a) false OSError s)) with (S (clock s)).
      replace (S (clock s) + i)%nat with (clock s + S i)%nat by lia.
      replace (S a + i)%nat with (a + S i)%nat by lia. exact H.
    + specialize (H 0%nat ltac:(lia)).
      now rewrite !Nat.add_0_r in H.
Qed.

End Probe.

(* ================================================================= *)
(** * The serving block *)

(** The port argument of both scripts:
    [int(sys.argv[1]) if len(sys.argv) > 1 else 8000], with [None] for the
    [ValueError] of [int]. *)
Definition requested_port (w : World) : option Z :=
  if (1 <? List.length (argv w))%nat
  then int_of_argument w (nth 1 (argv w) ""%string)
  else Some 8000.

Section Serving.

Variable w : World.
Variable C : HTTP.HandlerClass.
Variable page : string.

(** The [with socketserver.TCPServer(...) as httpd:] block that ends both
    [main] functions; the scripts differ in the page they announce. *)
Definition serve_block (port : Z) : M unit :=
  with_TCPServer w port (Some C) (fun httpd =>
    print ("Serving at http://localhost:" ++ str port ++ "/") ;;
    print ("Open test page: http://localhost:" ++ str port ++ page) ;;
    try_except
      (webbrowser_open w ("http://localhost:" ++ str port ++ page) ;; ret tt)
      except_all
      (ret tt) ;;
    print "Press Ctrl+C to stop the server" ;;
    try_except
      (serve_forever w httpd)
      except_KeyboardInterrupt
      (print (String (ascii_of_nat 10) "Server stopped."))).

(** What the block logs until the browser was asked to open the page. *)
Definition startup_log (port b : Z) : list event :=
  [ EvBind port true (inl b);
    EvPrint ("Serving at http://localhost:" ++ str port ++ "/");
    EvPrint ("Open test page: http://localhost:" ++ str port ++ page);
    EvBrowser ("http://localhost:" ++ str port ++ page) ].

(** The responses to the requests that arrive, served from [dir]. *)
Definition answers (dir : Path) : list event :=
  map (fun r =>
         EvResponse r (HTTP.handle_one_request C (version w) (date w) dir r))
      (incoming w).

(** What the block logs from there until the serve loop is over. *)
Definition loop_log (b : Z) (dir : Path) : list event :=
  (EvPrint "Press Ctrl+C to stop the server" :: EvServe b dir :: answers dir)%list.

Definition at_browser (port b : Z) (s : state) : state :=
  {| clock := S (clock s); listening := b :: listening s; cwd := cwd s;
     trace := trace s ++ startup_log port b |}.

Definition in_loop (port b : Z) (s : state) : state :=
  {| clock := S (clock s); listening := b :: listening s; cwd := cwd s;
     trace := trace s ++ startup_log port b ++ loop_log b (cwd s) |}.

Definition stopped (port b : Z) (final : list event) (s : state) : state :=
  {| clock := S (clock s); listening := listening s; cwd := cwd s;
     trace := trace s ++ startup_log port b ++ loop_log b (cwd s) ++ final |}.

Ltac block_log :=
  unfold stopped, in_loop, at_browser, startup_log, loop_log, answers,
    server_close, closed, accepted, log;
  cbn [except_KeyboardInterrupt snd fst trace clock listening cwd
       server_address];
  rewrite ?remove_first_head;
  repeat (rewrite <- ?app_assoc; cbn [app]);
  reflexivity.

Lemma respond_all (srv : server) (dir : Path) (reqs : list HTTP.request) :
  forall s,
  RequestHandlerClass srv = Some C ->
  fold_left (respond w srv dir) reqs s =
  {| clock := clock s; listening := listening s; cwd := cwd s;
     trace := trace s ++
              map (fun r => EvResponse r
                     (HTTP.handle_one_request C (version w) (date w) dir r))
                reqs |}.
Proof.
  induction reqs as [|r reqs IH]; intros s HC; simpl.
  - rewrite app_nil_r. now destruct s.
  - rewrite IH by exact HC. unfold respond. rewrite HC. simpl.
    now rewrite <- app_assoc.
Qed.

(** The outcome of the block once its socket is bound, by what the browser
    launch and the serve loop do. *)
Definition block_outcome (port b : Z) (s : state) : outcome unit * state :=
  match browser w ("http://localhost:" ++ str port ++ page) with
  | Blocks => (Blocks, at_browser port b s)
  | _ =>
      match serve_ends w with
      | None => (Blocks, in_loop port b s)
      | Some KeyboardInterrupt =>
          (Returns tt,
           stopped port b
             [EvPrint (String (ascii_of_nat 10) "Server stopped."); EvClose b] s)
      | Some e => (Raises e, stopped port b [EvClose b] s)
      end
  end.

Lemma serve_block_bindable (port : Z) (s : state) :
  bindable w (clock s) port = true ->
  serve_block port s = block_outcome port (bound_port w (clock s) port) s.
Proof.
  intros H. unfold serve_block, with_TCPServer, block_outcome.
  rewrite (TCPServer_bindable _ _ _ _ H).
  set (b := bound_port w (clock s) port).
  unfold bind, print, try_except, webbrowser_open, ret, except_all.
  cbn [log trace clock listening cwd accepted is_some].
  destruct (browser w _) as [opened|e|].
  - unfold serve_forever. cbn [log trace clock listening cwd server_address].
    rewrite respond_all by reflexivity.
    destruct (serve_ends w) as [[| | | | |]|]; block_log.
  - unfold serve_forever. cbn [log trace clock listening cwd server_address].
    rewrite respond_all by reflexivity.
    destruct (serve_ends w) as [[| | | | |]|]; block_log.
  - block_log.
Qed.

Lemma serve_block_busy (port : Z) (s : state) :
  port_busy w (clock s) port = true ->
  serve_block port s = (Raises OSError, refused port true OSError s).
Proof.
  intros H. unfold serve_block, with_TCPServer.
  now rewrite (TCPServer_busy _ _ _ _ H).
Qed.

Lemma serve_block_invalid (port : Z) (s : state) :
  valid_port port = false ->
  serve_block port s = (Raises OverflowError, refused port true OverflowError s).
Proof.
  intros H. unfold serve_block, with_TCPServer.
  now rewrite (TCPServer_invalid _ _ _ _ H).
Qed.

End Serving.

(** Both [main] functions, cut at the serving block. *)
Lemma Serve_main_unfold (w : World) (s : state) :
  Serve.main w s =
  match requested_port w with
  | None => (Raises ValueError, s)
  | Some port =>
      serve_block w (Serve.CORSRequestHandler (SimpleHTTPRequestHandler w))
        "/test.html" port
        {| clock := clock s; listening := listening s;
           cwd := parent (script_file w);
           trace := trace s ++ [EvChdir (parent (script_file w))] |}
  end.
Proof.
  unfold Serve.main, requested_port, bind, int.
  destruct (1 <? List.length (argv w))%nat.
  - destruct (int_of_argument w _); reflexivity.
  - reflexivity.
Qed.

(** The state of [test/serve.py] when the serving block begins: the probe
    left [s1] and found [port]. *)
Definition probe_done (w : World) (P port : Z) (s1 : state) : state :=
  let dir := parent (parent (script_file w)) in
  {| clock := clock s1; listening := listening s1; cwd := dir;
     trace := trace s1 ++
              (if port =? P then []
               else [EvPrint ("Port " ++ str P ++ " is in use, using port "
                                ++ str port ++ " instead")]) ++
              [EvChdir dir] |}.

Lemma TestServe_main_unfold (w : World) (s : state) :
  TestServe.main w s =
  match requested_port w with
  | None => (Raises ValueError, s)
  | Some P =>
      match TestServe.find_free_port w P 10 s with
      | (Returns None, s1) =>
          (Raises (SystemExit 1),
           log (EvPrint ("Error: Could not find an available port starting from "
                           ++ str P)) s1)
      | (Returns (Some port), s1) =>
          serve_block w
            (TestServe.CORSRequestHandler (SimpleHTTPRequestHandler w))
            "/test/test.html" port (probe_done w P port s1)
      | (Raises e, s1) => (Raises e, s1)
      | (Blocks, s1) => (Blocks, s1)
      end
  end.
Proof.
  unfold TestServe.main, requested_port, bind, int, probe_done.
  destruct (1 <? List.length (argv w))%nat.
  - destruct (int_of_argument w _) as [P|]; [|reflexivity].
    unfold ret at 1.
    destruct (TestServe.find_free_port w P 10 s) as [[[port|]|e|] s1];
      try reflexivity.
    unfold ret at 1. unfold print at 1, ret at 1, chdir, serve_block.
    destruct (port =? P); cbn [negb]; f_equal; unfold log;
      cbn [trace clock listening cwd app]; rewrite <- ?app_assoc; reflexivity.
  - unfold ret at 1.
    destruct (TestServe.find_free_port w 8000 10 s) as [[[port|]|e|] s1];
      try reflexivity.
    unfold ret at 1. unfold print at 1, ret at 1, chdir, serve_block.
    destruct (port =? 8000); cbn [negb]; f_equal; unfold log;
      cbn [trace clock listening cwd app]; rewrite <- ?app_assoc; reflexivity.
Qed.

(* ================================================================= *)
(** * What the probe does, case by case *)

Section ProbeCases.

Variable w : World.

(** The log of [k] refused binds on the candidates from [P] on. *)
Definition refusals (P : Z) (k : nat) : list event :=
  map (fun p => EvBind p false (inr OSError)) (candidates P 0 k).

Lemma all_refused_eq (ps : list Z) (s : state) :
  all_refused ps s =
  {| clock := clock s + List.length ps; listening := listening s; cwd := cwd s;
     trace := trace s ++ map (fun p => EvBind p false (inr OSError)) ps |}.
Proof.
  rewrite <- all_refused_clock, <- (all_refused_listening ps s),
    <- (all_refused_cwd ps s), <- all_refused_trace.
  now destruct (all_refused ps s).
Qed.

Lemma ten_candidates (P : Z) (k : nat) :
  (k < 10)%nat ->
  range P (P + 10) =
  (candidates P 0 k ++ (P + Z.of_nat k) :: candidates P (S k) (9 - k))%list.
Proof.
  intros Hk. rewrite range_candidates.
  replace (Z.to_nat 10) with (k + S (9 - k))%nat by lia.
  now rewrite candidates_app, candidates_S.
Qed.

(** The first [k] candidates are refused and the next one binds. *)
Lemma find_free_port_found (P : Z) (s : state) (k : nat) :
  (k < 10)%nat ->
  (forall i, (i < k)%nat -> port_busy w (clock s + i) (P + Z.of_nat i) = true) ->
  bindable w (clock s + k) (P + Z.of_nat k) = true ->
  TestServe.find_free_port w P 10 s =
  (Returns (Some (P + Z.of_nat k)),
   {| clock := S (clock s + k); listening := listening s; cwd := cwd s;
      trace := trace s ++ refusals P k ++
               [EvBind (P + Z.of_nat k) false
                  (inl (bound_port w (clock s + k) (P + Z.of_nat k)));
                EvClose (bound_port w (clock s + k) (P + Z.of_nat k))] |}).
Proof.
  intros Hk Hbusy Hfree. unfold TestServe.find_free_port.
  rewrite (ten_candidates P k Hk), find_free_port_loop_skip by exact Hbusy.
  rewrite all_refused_eq, candidates_length.
  rewrite find_free_port_loop_bindable by exact Hfree.
  unfold closed, accepted, refusals. cbn [trace clock listening cwd].
  rewrite remove_first_head. now rewrite <- !app_assoc.
Qed.

(** All ten candidates are refused. *)
Lemma find_free_port_exhausted (P : Z) (s : state) :
  (forall i, (i < 10)%nat -> port_busy w (clock s + i) (P + Z.of_nat i) = true) ->
  TestServe.find_free_port w P 10 s =
  (Returns None,
   {| clock := clock s + 10; listening := listening s; cwd := cwd s;
      trace := trace s ++ refusals P 10 |}).
Proof.
  intros Hbusy. unfold TestServe.find_free_port.
  rewrite range_candidates. change (Z.to_nat 10) with 10%nat.
  rewrite <- (app_nil_r (candidates P 0 10)).
  rewrite find_free_port_loop_skip by exact Hbusy.
  rewrite all_refused_eq, candidates_length. reflexivity.
Qed.

(** The first [k] candidates are refused and the next one is no port
    number: its [OverflowError] is not an [OSError] and leaves the loop. *)
Lemma find_free_port_overflow (P : Z) (s : state) (k : nat) :
  (k < 10)%nat ->
  (forall i, (i < k)%nat -> port_busy w (clock s + i) (P + Z.of_nat i) = true) ->
  valid_port (P + Z.of_nat k) = false ->
  TestServe.find_free_port w P 10 s =
  (Raises OverflowError,
   {| clock := S (clock s + k); listening := listening s; cwd := cwd s;
      trace := trace s ++ refusals P k ++
               [EvBind (P + Z.of_nat k) false (inr OverflowError)] |}).
Proof.
  intros Hk Hbusy Hbad. unfold TestServe.find_free_port.
  rewrite (ten_candidates P k Hk), find_free_port_loop_skip by exact Hbusy.
  rewrite all_refused_eq, candidates_length.
  rewrite find_free_port_loop_invalid by exact Hbad.
  unfold refused, refusals. cbn [trace clock listening cwd].
  now rewrite <- !app_assoc.
Qed.

(** How many of the first [n] candidates are refused in a row. *)
Lemma refused_run (P : Z) (t : nat) (n : nat) :
  exists k, (k <= n)%nat /\
    (forall i, (i < k)%nat -> port_busy w (t + i) (P + Z.of_nat i) = true) /\
    (k = n \/ ((k < n)%nat /\ port_busy w (t + k) (P + Z.of_nat k) = false)).
Proof.
  induction n as [|n [k (Hle & Hbusy & Hend)]].
  - exists 0%nat. split; [lia|]. split; [intros; lia | now left].
  - destruct Hend as [->|[Hlt Hstop]].
    + destruct (port_busy w (t + n) (P + Z.of_nat n)) eqn:E.
      * exists (S n). split; [lia|]. split; [|now left].
        intros i Hi. destruct (Nat.eq_dec i n) as [->|]; [exact E|].
        apply Hbusy. lia.
      * exists n. split; [lia|]. split; [exact Hbusy|]. right. split; [lia|exact E].
    + exists k. split; [lia|]. split; [exact Hbusy|]. right. split; [lia|exact Hstop].
Qed.

Lemma probed_refusals (P : Z) (k : nat) : probed (refusals P k) = candidates P 0 k.
Proof.
  unfold refusals. induction (candidates P 0 k) as [|c l IH]; [reflexivity|].
  simpl. now rewrite IH.
Qed.

Lemma candidates_snoc (P : Z) (k : nat) :
  candidates P 0 (S k) = (candidates P 0 k ++ [P + Z.of_nat k])%list.
Proof.
  replace (S k) with (k + 1)%nat by lia. now rewrite candidates_app.
Qed.

(** The probes of a call are always the first candidates, at most ten, each
    once and in increasing order, whatever the binds do. *)
Lemma find_free_port_probes (P : Z) (s : state) :
  exists n, (n <= 10)%nat /\
    probed (trace (snd (TestServe.find_free_port w P 10 s))) =
    (probed (trace s) ++ candidates P 0 n)%list.
Proof.
  destruct (refused_run P (clock s) 10) as (k & Hle & Hbusy & Hend).
  destruct Hend as [->|[Hk Hstop]].
  - exists 10%nat. split; [lia|].
    rewrite find_free_port_exhausted by exact Hbusy. cbn [snd trace].
    now rewrite probed_app, probed_refusals.
  - exists (S k). split; [lia|].
    destruct (bind_cases w (clock s + k) (P + Z.of_nat k)) as [Hbad|[Hb|Hfree]].
    + rewrite (find_free_port_overflow P s k Hk Hbusy Hbad). cbn [snd trace].
      rewrite !probed_app, probed_refusals, candidates_snoc. reflexivity.
    + congruence.
    + rewrite (find_free_port_found P s k Hk Hbusy Hfree). cbn [snd trace].
      rewrite !probed_app, probed_refusals, candidates_snoc. reflexivity.
Qed.

End ProbeCases.

(* ================================================================= *)
(** * The free-port resolver *)

(** C1, as amended.  [find_free_port(P)] binds and at once closes the
    candidates [P], [P+1], ... in increasing order.  When the first [k]
    candidates are port numbers whose bind the operating system refuses
    ([OSError]) and candidate [P+k] binds, it returns [P+k]; when all ten
    are refused in this way ([k = 10]) it returns [None].  The log shows the
    refused binds in order, then the successful bind and its release; the
    process listens on no more sockets than before. *)
Theorem find_free_port_first_success (w : World) (P : Z) (s : state) (k : nat) :
  (k <= 10)%nat ->
  (forall i, (i < k)%nat -> port_busy w (clock s + i) (P + Z.of_nat i) = true) ->
  ((k < 10)%nat -> bindable w (clock s + k) (P + Z.of_nat k) = true) ->
  fst (TestServe.find_free_port w P 10 s) =
    Returns (if (k <? 10)%nat then Some (P + Z.of_nat k) else None) /\
  trace (snd (TestServe.find_free_port w P 10 s)) =
    (trace s ++ refusals P k ++
       (if (k <? 10)%nat
        then [EvBind (P + Z.of_nat k) false
                (inl (bound_port w (clock s + k) (P + Z.of_nat k)));
              EvClose (bound_port w (clock s + k) (P + Z.of_nat k))]
        else []))%list /\
  listening (snd (TestServe.find_free_port w P 10 s)) = listening s.
Proof.
  intros Hle Hbusy Hfree.
  destruct (k <? 10)%nat eqn:E.
  - apply Nat.ltb_lt in E.
    rewrite (find_free_port_found w P s k E Hbusy (Hfree E)).
    repeat split.
  - apply Nat.ltb_ge in E. assert (k = 10%nat) as -> by lia.
    rewrite (find_free_port_exhausted w P s Hbusy).
    cbn [fst snd trace listening]. now rewrite app_nil_r.
Qed.

(** Ports 80 and 81 are taken, 82 is not: the resolver returns 82 after
    three probes. *)
Lemma find_free_port_first_success_witness :
  let w := crowded [] (fun _ p => p <? 82) in
  let s := start (slash []) in
  fst (TestServe.find_free_port w 80 10 s) = Returns (Some 82) /\
  trace (snd (TestServe.find_free_port w 80 10 s)) =
    [EvBind 80 false (inr OSError); EvBind 81 false (inr OSError);
     EvBind 82 false (inl 82); EvClose 82] /\
  listening (snd (TestServe.find_free_port w 80 10 s)) = [].
Proof.
  intros w s.
  apply (find_free_port_first_success w 80 s 2).
  - lia.
  - intros i Hi. destruct i as [|[|i]]; [reflexivity | reflexivity | lia].
  - intros _. reflexivity.
Defined.

(** C1 as the specification states it, for every starting port and with
    "fails to bind" for every kind of failure, does not hold: from 65535 on
    with port 65535 taken no candidate binds, yet no [None] comes back,
    since the bind of 65536 raises [OverflowError]. *)
Lemma find_free_port_first_success_counterexample :
  ~ (forall (w : World) (P : Z) (s : state) (k : nat),
       (k <= 10)%nat ->
       (forall i, (i < k)%nat ->
          bindable w (clock s + i) (P + Z.of_nat i) = false) ->
       ((k < 10)%nat -> bindable w (clock s + k) (P + Z.of_nat k) = true) ->
       fst (TestServe.find_free_port w P 10 s) =
         Returns (if (k <? 10)%nat then Some (P + Z.of_nat k) else None)).
Proof.
  intros H.
  specialize (H (crowded [] (fun _ _ => true)) 65535 (start (slash [])) 10%nat).
  assert (E : fst (TestServe.find_free_port (crowded [] (fun _ _ => true))
                     65535 10 (start (slash []))) = Raises OverflowError)
    by reflexivity.
  rewrite E in H. discriminate H.
  - lia.
  - intros i Hi. do 10 (destruct i as [|i]; [reflexivity|]). lia.
  - intros Hk. lia.
Qed.

(* ================================================================= *)
(** * Reading the log of the serving block *)

Section BlockLog.

Variable w : World.
Variable C : HTTP.HandlerClass.
Variable page : string.

Lemma answers_no_probe (dir : Path) : probed (answers w C dir) = [].
Proof. unfold answers. induction (incoming w); [reflexivity | assumption]. Qed.

Lemma answers_no_chdir (dir : Path) : chdirs (answers w C dir) = [].
Proof. unfold answers. induction (incoming w); [reflexivity | assumption]. Qed.

Lemma answers_no_bind (dir : Path) : binds (answers w C dir) = [].
Proof. unfold answers. induction (incoming w); [reflexivity | assumption]. Qed.

Lemma answers_no_print (dir : Path) : printed (answers w C dir) = [].
Proof. unfold answers. induction (incoming w); [reflexivity | assumption]. Qed.

Lemma answers_no_serve (dir : Path) : serves (answers w C dir) = [].
Proof. unfold answers. induction (incoming w); [reflexivity | assumption]. Qed.

Lemma answers_responses (dir : Path) :
  responses (answers w C dir) =
  map (fun r => (r, HTTP.handle_one_request C (version w) (date w) dir r))
    (incoming w).
Proof.
  unfold answers. induction (incoming w) as [|r l IH]; [reflexivity|].
  simpl. now rewrite IH.
Qed.

End BlockLog.

(** The serving block in each of its cases, with its log laid out. *)
Ltac block_cases w port s :=
  let Hbad := fresh "Hbad" in
  let Hbusy := fresh "Hbusy" in
  let Hfree := fresh "Hfree" in
  destruct (bind_cases w (clock s) port) as [Hbad|[Hbusy|Hfree]];
  [ rewrite (serve_block_invalid w _ _ port s Hbad)
  | rewrite (serve_block_busy w _ _ port s Hbusy)
  | rewrite (serve_block_bindable w _ _ port s Hfree);
    unfold block_outcome;
    destruct (browser w _) as [?|?|];
    [ destruct (serve_ends w) as [[| | | | |]|]
    | destruct (serve_ends w) as [[| | | | |]|]
    | ] ];
  unfold refused, stopped, in_loop, at_browser, startup_log, loop_log;
  cbn [fst snd trace clock listening cwd].

Ltac fold_one proj :=
  let t := eval cbv delta [proj] beta in (proj []) in
  match t with
  | flat_map ?f _ => change (flat_map f) with proj
  end.

Ltac fold_log :=
  fold_one printed; fold_one chdirs; fold_one binds; fold_one responses;
  fold_one probed; fold_one serves.

Ltac read_log :=
  repeat progress
    (autorewrite with log;
     cbn [printed chdirs binds responses probed serves flat_map app
          trace start];
     fold_log;
     rewrite ?answers_no_probe, ?answers_no_chdir, ?answers_no_bind,
       ?answers_no_print, ?answers_no_serve, ?answers_responses, ?app_nil_r).

(** The serving block probes nothing. *)
Lemma serve_block_probed (w : World) (C : HTTP.HandlerClass) (page : string)
    (port : Z) (s : state) :
  probed (trace (snd (serve_block w C page port s))) = probed (trace s).
Proof. block_cases w port s; read_log; reflexivity. Qed.

(* ================================================================= *)
(** * Port exhaustion *)

(** Whatever the binds do, the probes of a run of [test/serve.py] are the
    first candidates from the requested port on, at most ten of them. *)
Lemma TestServe_main_probed (w : World) (P : Z) (d : Path) :
  requested_port w = Some P ->
  exists n, (n <= 10)%nat /\
    probed (trace (snd (run TestServe.main w d))) = candidates P 0 n.
Proof.
  intros HP. unfold run. rewrite TestServe_main_unfold, HP.
  destruct (find_free_port_probes w P (start d)) as (n & Hn & E).
  exists n. split; [exact Hn|].
  destruct (TestServe.find_free_port w P 10 (start d)) as [[[port|]|e|] s1];
    cbn [snd] in E |- *; try exact E.
  - rewrite serve_block_probed. unfold probe_done. cbn [trace].
    destruct (port =? P); read_log; exact E.
  - unfold log. cbn [trace]. read_log. exact E.
Qed.

(** C2, as amended.  In a run of [test/serve.py] with requested port [P]
    the probe binds the first candidates from [P] on, at most ten, and
    never port [P+10] or a later one.  When the ten ports [P .. P+9] are
    port numbers and the operating system refuses each bind ([OSError]),
    the run makes exactly these ten binds, prints that it could not find
    an available port, and exits with status 1. *)
Theorem main_port_exhaustion (w : World) (P : Z) (d : Path) :
  requested_port w = Some P ->
  (exists n, (n <= 10)%nat /\
     probed (trace (snd (run TestServe.main w d))) = candidates P 0 n) /\
  ((forall i, (i < 10)%nat -> port_busy w i (P + Z.of_nat i) = true) ->
   fst (run TestServe.main w d) = Raises (SystemExit 1) /\
   exit_status (fst (run TestServe.main w d)) = Some 1 /\
   printed (trace (snd (run TestServe.main w d))) =
     [("Error: Could not find an available port starting from " ++ str P)%string] /\
   binds (trace (snd (run TestServe.main w d))) =
     map (fun p => (p, false, inr OSError)) (range P (P + 10))).
Proof.
  intros HP. split; [exact (TestServe_main_probed w P d HP)|].
  intros Hbusy. unfold run. rewrite TestServe_main_unfold, HP.
  rewrite (find_free_port_exhausted w P (start d) Hbusy).
  cbn [fst snd exit_status log trace start]. repeat split.
  rewrite range_candidates. reflexivity.
Qed.

(** Ports 80 to 89 are all taken. *)
Lemma main_port_exhaustion_witness :
  let w := crowded ["serve.py"; "80"]%string (fun _ _ => true) in
  let r := run TestServe.main w (slash []) in
  fst r = Raises (SystemExit 1) /\
  exit_status (fst r) = Some 1 /\
  printed (trace (snd r)) =
    ["Error: Could not find an available port starting from 80"%string] /\
  binds (trace (snd r)) =
    map (fun p => (p, false, inr OSError)) [80; 81; 82; 83; 84; 85; 86; 87; 88; 89].
Proof.
  intros w r.
  apply (main_port_exhaustion w 80 (slash [])).
  - reflexivity.
  - intros i Hi. do 10 (destruct i as [|i]; [reflexivity|]). lia.
Defined.

(** C2 as the specification states it does not hold for every requested
    port: from 65535 on, no port of [P .. P+9] binds, but the run ends in
    the [OverflowError] of the bind of 65536 and prints no message. *)
Lemma main_port_exhaustion_counterexample :
  ~ (forall (w : World) (P : Z) (d : Path),
       requested_port w = Some P ->
       (forall i, (i < 10)%nat -> bindable w i (P + Z.of_nat i) = false) ->
       In ("Error: Could not find an available port starting from " ++ str P)%string
          (printed (trace (snd (run TestServe.main w d))))).
Proof.
  intros H.
  specialize (H (crowded ["serve.py"; "65535"]%string (fun _ _ => true)) 65535
                (slash []) eq_refl).
  assert (E : printed (trace (snd (run TestServe.main
                (crowded ["serve.py"; "65535"]%string (fun _ _ => true))
                (slash [])))) = []) by reflexivity.
  rewrite E in H. apply H.
  intros i Hi. do 10 (destruct i as [|i]; [reflexivity|]). lia.
Qed.

(* ================================================================= *)
(** * The results of the probe *)

(** The three ways [find_free_port(P)] ends, from state [s]. *)
Inductive probe_result (w : World) (P : Z) (s : state)
  : outcome (option Z) * state -> Prop :=
| probe_found (k : nat) :
    (k < 10)%nat ->
    (forall i, (i < k)%nat -> port_busy w (clock s + i) (P + Z.of_nat i) = true) ->
    bindable w (clock s + k) (P + Z.of_nat k) = true ->
    probe_result w P s
      (Returns (Some (P + Z.of_nat k)),
       {| clock := S (clock s + k); listening := listening s; cwd := cwd s;
          trace := trace s ++ refusals P k ++
                   [EvBind (P + Z.of_nat k) false
                      (inl (bound_port w (clock s + k) (P + Z.of_nat k)));
                    EvClose (bound_port w (clock s + k) (P + Z.of_nat k))] |})
| probe_exhausted :
    (forall i, (i < 10)%nat -> port_busy w (clock s + i) (P + Z.of_nat i) = true) ->
    probe_result w P s
      (Returns None,
       {| clock := clock s + 10; listening := listening s; cwd := cwd s;
          trace := trace s ++ refusals P 10 |})
| probe_overflow (k : nat) :
    (k < 10)%nat ->
    (forall i, (i < k)%nat -> port_busy w (clock s + i) (P + Z.of_nat i) = true) ->
    valid_port (P + Z.of_nat k) = false ->
    probe_result w P s
      (Raises OverflowError,
       {| clock := S (clock s + k); listening := listening s; cwd := cwd s;
          trace := trace s ++ refusals P k ++
                   [EvBind (P + Z.of_nat k) false (inr OverflowError)] |}).

(** [find_free_port] always ends, in one of these ways. *)
Lemma find_free_port_result (w : World) (P : Z) (s : state) :
  probe_result w P s (TestServe.find_free_port w P 10 s).
Proof.
  destruct (refused_run w P (clock s) 10) as (k & Hle & Hbusy & Hend).
  destruct Hend as [->|[Hk Hstop]].
  - rewrite find_free_port_exhausted by exact Hbusy. now constructor.
  - destruct (bind_cases w (clock s + k) (P + Z.of_nat k)) as [Hbad|[Hb|Hfree]].
    + rewrite (find_free_port_overflow w P s k Hk Hbusy Hbad). now constructor.
    + congruence.
    + rewrite (find_free_port_found w P s k Hk Hbusy Hfree). now constructor.
Qed.

Lemma refusals_no_print (P : Z) (k : nat) : printed (refusals P k) = [].
Proof. unfold refusals. induction (candidates P 0 k); [reflexivity | assumption]. Qed.

Lemma refusals_no_chdir (P : Z) (k : nat) : chdirs (refusals P k) = [].
Proof. unfold refusals. induction (candidates P 0 k); [reflexivity | assumption]. Qed.

Lemma refusals_no_response (P : Z) (k : nat) : responses (refusals P k) = [].
Proof. unfold refusals. induction (candidates P 0 k); [reflexivity | assumption]. Qed.

Lemma refusals_no_serve (P : Z) (k : nat) : serves (refusals P k) = [].
Proof. unfold refusals. induction (candidates P 0 k); [reflexivity | assumption]. Qed.

Lemma refusals_binds (P : Z) (k : nat) :
  binds (refusals P k) = map (fun p => (p, false, inr OSError)) (candidates P 0 k).
Proof.
  unfold refusals. induction (candidates P 0 k) as [|c l IH]; [reflexivity|].
  simpl. now rewrite IH.
Qed.

Ltac read_probe :=
  rewrite ?refusals_no_print, ?refusals_no_chdir, ?refusals_no_response,
    ?refusals_no_serve, ?refusals_binds, ?probed_refusals, ?app_nil_r.

(** A run of either script, in each of its cases. *)
Ltac main_cases w d :=
  unfold run;
  rewrite ?Serve_main_unfold, ?TestServe_main_unfold;
  destruct (requested_port w) as [?P|]; cbn [fst snd trace start];
  try match goal with
    | |- context [TestServe.find_free_port w ?P 10 (start d)] =>
        destruct (find_free_port_result w P (start d));
        cbn [fst snd trace start log clock listening cwd]
    end.

(* ================================================================= *)
(** * The header buffer *)

Module Headers.

Import HTTP.

(** The line that [send_header] puts into the buffer. *)
Definition header_line (keyword value : string) : string :=
  (keyword ++ ": " ++ value ++ CRLF)%string.

(** The three lines that the scripts add. *)
Definition cors_lines : list string :=
  [ header_line "Access-Control-Allow-Origin" "*";
    header_line "Access-Control-Allow-Methods" "GET, POST, OPTIONS";
    header_line "Access-Control-Allow-Headers" "*" ].

Fixpoint starts_with (p s : string) : bool :=
  match p, s with
  | EmptyString, _ => true
  | String a p', String b s' => Ascii.eqb a b && starts_with p' s'
  | String _ _, EmptyString => false
  end.

(** [p] is a substring of [s]. *)
Fixpoint occurs (p s : string) : bool :=
  starts_with p s ||
  match s with
  | EmptyString => false
  | String _ s' => occurs p s'
  end.

(** The header block of a response, the first thing written, contains the
    header line. *)
Definition carries (keyword value : string) (wire : list string) : bool :=
  occurs (header_line keyword value) (hd EmptyString wire).

(** The response carries the three CORS headers with their fixed values. *)
Definition cors_headers (wire : list string) : bool :=
  carries "Access-Control-Allow-Origin" "*" wire &&
  carries "Access-Control-Allow-Methods" "GET, POST, OPTIONS" wire &&
  carries "Access-Control-Allow-Headers" "*" wire.

Lemma starts_with_append (p s : string) : starts_with p (p ++ s) = true.
Proof.
  induction p as [|a p IH]; [reflexivity|].
  simpl. now rewrite Ascii.eqb_refl, IH.
Qed.

Lemma occurs_starts (p s : string) : starts_with p s = true -> occurs p s = true.
Proof. intros H. destruct s; simpl; now rewrite H. Qed.

Lemma occurs_append (a p s : string) : occurs p (a ++ p ++ s) = true.
Proof.
  induction a as [|c a IH].
  - change ("" ++ p ++ s)%string with (p ++ s)%string.
    apply occurs_starts. apply starts_with_append.
  - simpl. rewrite IH. apply orb_true_r.
Qed.

Lemma append_nil_r (s : string) : (s ++ "")%string = s.
Proof. induction s as [|c s IH]; [reflexivity|]. simpl. now rewrite IH. Qed.

Lemma append_assoc (a b c : string) : ((a ++ b) ++ c)%string = (a ++ b ++ c)%string.
Proof. induction a as [|x a IH]; [reflexivity|]. simpl. now rewrite IH. Qed.

Lemma concat_cons (x : string) (l : list string) :
  String.concat "" (x :: l) = (x ++ String.concat "" l)%string.
Proof. destruct l; simpl; [now rewrite append_nil_r | reflexivity]. Qed.

Lemma concat_app (a b : list string) :
  String.concat "" (a ++ b) = (String.concat "" a ++ String.concat "" b)%string.
Proof.
  induction a as [|x a IH]; [reflexivity|].
  rewrite <- app_comm_cons, !concat_cons, IH. now rewrite append_assoc.
Qed.

(** A line of the buffer is a substring of the flushed block. *)
Lemma occurs_concat (line : string) (before after : list string) :
  occurs line (String.concat "" (before ++ line :: after)) = true.
Proof. rewrite concat_app, concat_cons. apply occurs_append. Qed.

(** A header block that ends with the three lines carries the headers. *)
Lemma cors_headers_block (lines rest : list string) :
  cors_headers
    (String.concat "" (lines ++ cors_lines ++ [CRLF]) :: rest) = true.
Proof.
  unfold cors_headers, carries, cors_lines. cbn [hd app].
  set (a := header_line "Access-Control-Allow-Origin" "*").
  set (b := header_line "Access-Control-Allow-Methods" "GET, POST, OPTIONS").
  set (c := header_line "Access-Control-Allow-Headers" "*").
  rewrite (occurs_concat a lines [b; c; CRLF]).
  replace (lines ++ [a; b; c; CRLF])%list with ((lines ++ [a]) ++ b :: [c; CRLF])%list
    by (now rewrite <- app_assoc).
  rewrite (occurs_concat b (lines ++ [a]) [c; CRLF]).
  replace ((lines ++ [a]) ++ [b; c; CRLF])%list
    with ((lines ++ [a; b]) ++ c :: [CRLF])%list
    by (now rewrite <- !app_assoc).
  rewrite (occurs_concat c (lines ++ [a; b]) [CRLF]).
  reflexivity.
Qed.

End Headers.

(* ================================================================= *)
(** * What a request handler writes *)

Section Buffer.

Import HTTP.
Import Headers.

(** A handler that sends headers, has [lines] in its buffer and has written
    nothing yet. *)
Definition buffered (h : handler) (lines : list string) : Prop :=
  has_headers h = true /\ headers_buffer h = lines /\ wfile h = [].

Lemma send_header_buffered (keyword value : string) (h : handler)
    (lines : list string) :
  buffered h lines ->
  buffered (send_header keyword value h) (lines ++ [header_line keyword value]).
Proof.
  intros (Hh & Hb & Hw). unfold send_header. rewrite Hh.
  unfold buffered, has_headers in *.
  destruct (String.eqb (lower keyword) "connection");
    [destruct (String.eqb (lower value) "close");
       [|destruct (String.eqb (lower value) "keep-alive")]|];
    cbn [set_close set_buffer request_version headers_buffer wfile];
    rewrite Hb; auto.
Qed.

Lemma send_response_only_buffered (code : Z) (message : string) (h : handler)
    (lines : list string) :
  buffered h lines ->
  buffered (send_response_only code message h)
    (lines ++ [(protocol_version ++ " " ++ str code ++ " " ++ message ++ CRLF)%string]).
Proof.
  intros (Hh & Hb & Hw). unfold send_response_only. rewrite Hh.
  unfold buffered, has_headers in *.
  cbn [set_buffer request_version headers_buffer wfile]. rewrite Hb. auto.
Qed.

Lemma send_headers_buffered (hs : list (string * string)) :
  forall (h : handler) (lines : list string),
  buffered h lines ->
  buffered (send_headers hs h)
    (lines ++ map (fun kv => header_line (fst kv) (snd kv)) hs).
Proof.
  induction hs as [|kv hs IH]; intros h lines H.
  - now rewrite app_nil_r.
  - cbn [send_headers fold_left map].
    apply (send_header_buffered (fst kv) (snd kv)) in H.
    apply IH in H. now rewrite <- app_assoc in H.
Qed.

Lemma end_headers_buffered (h : handler) (lines : list string) :
  buffered h lines ->
  wfile (end_headers h) = [String.concat "" (lines ++ [CRLF])].
Proof.
  intros (Hh & Hb & Hw). unfold end_headers. rewrite Hh.
  unfold flush_headers.
  cbn [set_buffer write request_version headers_buffer wfile].
  now rewrite Hb, Hw.
Qed.

Lemma write_body_wfile (b : option string) (h : handler) :
  wfile (write_body b h) =
  (wfile h ++ match b with Some chunk => [chunk] | None => [] end)%list.
Proof. destruct b; simpl; [reflexivity | now rewrite app_nil_r]. Qed.

(** The header lines that the library sends for a reply. *)
Definition reply_lines (version date : string) (a : reply) : list string :=
  ((protocol_version ++ " " ++ str (status a) ++ " " ++ reason a ++ CRLF)%string
   :: header_line "Server" version
   :: header_line "Date" date
   :: map (fun kv => header_line (fst kv) (snd kv)) (headers a))%list.

(** The hook of the scripts on top of the library's [end_headers]: the
    three lines close the header block. *)
Lemma end_headers_cors (h : handler) (lines : list string) :
  buffered h lines ->
  wfile (TestServe.end_headers end_headers h) =
  [String.concat "" (lines ++ cors_lines ++ [CRLF])].
Proof.
  intros H. unfold TestServe.end_headers.
  apply (send_header_buffered "Access-Control-Allow-Origin" "*") in H.
  apply (send_header_buffered "Access-Control-Allow-Methods" "GET, POST, OPTIONS") in H.
  apply (send_header_buffered "Access-Control-Allow-Headers" "*") in H.
  rewrite (end_headers_buffered _ _ H). unfold cors_lines.
  now rewrite <- !app_assoc.
Qed.

(** A request line that gives a [request_version] other than ['HTTP/0.9']
    is answered. *)
Lemma answered_version (raw : string) :
  request_version_of raw <> "HTTP/0.9"%string -> answered raw = true.
Proof.
  unfold request_version_of, answered. cbv zeta.
  destruct (65536 <? _); [reflexivity|].
  destruct (split_words [] _) as [|word words]; [|reflexivity].
  intros H. now elim H.
Qed.

(** What [parse_request] makes of some request lines: a version below 2.0
    is kept; an unsupported or a malformed version, a two-word and a
    one-word line leave the default; a line without a word, and no line at
    all, get no reply. *)
Example request_version_cases :
  request_version_of ("GET /x HTTP/1.1" ++ CRLF) = "HTTP/1.1"%string /\
  request_version_of ("GET /x HTTP/1.0" ++ CRLF) = "HTTP/1.0"%string /\
  request_version_of ("GET /x HTTP/2.0" ++ CRLF) = "HTTP/0.9"%string /\
  request_version_of ("GET /x FOO/1.0" ++ CRLF) = "HTTP/0.9"%string /\
  request_version_of ("GET /x" ++ CRLF) = "HTTP/0.9"%string /\
  request_version_of ("GET" ++ CRLF) = "HTTP/0.9"%string /\
  answered CRLF = false /\ answered "" = false.
Proof. repeat split; vm_compute; reflexivity. Qed.

(** A request for which [request_version] is not ['HTTP/0.9'], handled by
    the class of the scripts. *)
Lemma handle_one_request_cors (w : World) (dir : Path) (r : request) :
  request_version_of (raw_requestline r) <> "HTTP/0.9"%string ->
  handle_one_request (TestServe.CORSRequestHandler (SimpleHTTPRequestHandler w))
    (version w) (date w) dir r =
  (String.concat ""
     (reply_lines (version w) (date w) (static_files w dir r)
        ++ cors_lines ++ [CRLF])
   :: match body (static_files w dir r) with
      | Some chunk => [chunk]
      | None => []
      end)%list.
Proof.
  intros Hv. unfold handle_one_request.
  rewrite (answered_version _ Hv). unfold write_reply.
  cbn [TestServe.CORSRequestHandler SimpleHTTPRequestHandler cls_reply
       cls_end_headers].
  set (a := static_files w dir r).
  set (self := {| request_version := request_version_of (raw_requestline r);
                  version_string := version w;
                  date_time_string := date w;
                  headers_buffer := [];
                  wfile := [];
                  close_connection := true |}).
  assert (H0 : buffered self []).
  { unfold buffered, has_headers. cbn [request_version self].
    apply String.eqb_neq in Hv. rewrite Hv. auto. }
  apply (send_response_only_buffered (status a) (reason a)) in H0.
  apply (send_header_buffered "Server" (version w)) in H0.
  apply (send_header_buffered "Date" (date w)) in H0.
  apply (send_headers_buffered (headers a)) in H0.
  rewrite write_body_wfile.
  unfold send_response.
  change (version_string self) with (version w).
  change (date_time_string self) with (date w).
  rewrite (end_headers_cors _ _ H0). unfold reply_lines.
  cbn [app]. reflexivity.
Qed.

End Buffer.

(* ================================================================= *)
(** * The responses of a run *)

Lemma same_handler_class : Serve.CORSRequestHandler = TestServe.CORSRequestHandler.
Proof. reflexivity. Qed.

Ltac serve_block_cases :=
  match goal with
  | |- context [serve_block ?w ?C ?pg ?port ?s] => block_cases w port s
  end.

Lemma in_answers (w : World) (C : HTTP.HandlerClass) (dir : Path)
    (r : HTTP.request) (wire : list string) :
  In (r, wire)
     (map (fun r => (r, HTTP.handle_one_request C (version w) (date w) dir r))
        (incoming w)) ->
  In r (incoming w) /\
  wire = HTTP.handle_one_request C (version w) (date w) dir r.
Proof.
  intros H. apply in_map_iff in H as (r' & E & Hin).
  inversion E; subst. auto.
Qed.

(** Every response of a run of [serve.py] answers a request that arrived,
    and was written by an instance of [CORSRequestHandler] serving from the
    script's directory. *)
Lemma Serve_main_responses (w : World) (d : Path) (r : HTTP.request)
    (wire : list string) :
  In (r, wire) (responses (trace (snd (run Serve.main w d)))) ->
  In r (incoming w) /\
  wire = HTTP.handle_one_request
           (TestServe.CORSRequestHandler (SimpleHTTPRequestHandler w))
           (version w) (date w) (parent (script_file w)) r.
Proof.
  main_cases w d; [|intros []].
  rewrite same_handler_class.
  serve_block_cases; read_log; cbn [In];
    try (intros []); apply in_answers.
Qed.

(** The same for [test/serve.py], serving from the project root. *)
Lemma TestServe_main_responses (w : World) (d : Path) (r : HTTP.request)
    (wire : list string) :
  In (r, wire) (responses (trace (snd (run TestServe.main w d)))) ->
  In r (incoming w) /\
  wire = HTTP.handle_one_request
           (TestServe.CORSRequestHandler (SimpleHTTPRequestHandler w))
           (version w) (date w) (parent (parent (script_file w))) r.
Proof.
  main_cases w d; try (read_log; read_probe; cbn [In responses flat_map app];
                       intros []).
  unfold probe_done.
  serve_block_cases; read_log; read_probe;
    destruct (_ =? _); read_log; cbn [In];
    try (intros []); apply in_answers.
Qed.

(* ================================================================= *)
(** * CORS headers *)

(** C3, as amended.  Every response that either script writes to a request
    line for which [parse_request] gives the handler a [request_version]
    other than ['HTTP/0.9'] carries, whatever the path, the method and the status, the
    three CORS headers with their fixed values: they are the last three
    lines of the header block, added by [end_headers] without any
    condition. *)
Theorem cors_headers_on_every_response (w : World) (d : Path)
    (r : HTTP.request) (wire : list string) :
  In (r, wire) (responses (trace (snd (run Serve.main w d)))) \/
  In (r, wire) (responses (trace (snd (run TestServe.main w d)))) ->
  HTTP.request_version_of (HTTP.raw_requestline r) <> "HTTP/0.9"%string ->
  Headers.cors_headers wire = true /\
  exists lines rest,
    wire = (String.concat "" (lines ++ Headers.cors_lines ++ [HTTP.CRLF])
            :: rest)%list.
Proof.
  intros Hin Hv.
  assert (E : exists dir,
    wire = HTTP.handle_one_request
             (TestServe.CORSRequestHandler (SimpleHTTPRequestHandler w))
             (version w) (date w) dir r).
  { destruct Hin as [H|H].
    - apply Serve_main_responses in H as [_ H]. eauto.
    - apply TestServe_main_responses in H as [_ H]. eauto. }
  destruct E as (dir & ->). rewrite (handle_one_request_cors w dir r Hv).
  split; [apply Headers.cors_headers_block | eauto].
Qed.

(** On the quiet machine the response to [GET /test.html HTTP/1.1] carries
    the three headers. *)
Lemma cors_headers_on_every_response_witness :
  let w := quiet ["serve.py"]%string in
  let r := {| HTTP.raw_requestline :=
                ("GET /test.html HTTP/1.1" ++ HTTP.CRLF)%string |} in
  let wire := HTTP.handle_one_request
                (Serve.CORSRequestHandler (SimpleHTTPRequestHandler w))
                (version w) (date w) (slash ["repo"; "test"]%string) r in
  Headers.cors_headers wire = true /\
  exists lines rest,
    wire = (String.concat "" (lines ++ Headers.cors_lines ++ [HTTP.CRLF])
            :: rest)%list.
Proof.
  intros w r wire.
  apply (cors_headers_on_every_response w (slash []) r wire).
  - left. vm_compute. left. reflexivity.
  - vm_compute. intros H. discriminate H.
Defined.

(** C3 as the specification states it, for every response, does not hold:
    while [request_version] is ['HTTP/0.9'] (here the two-word request line
    [GET /missing]) [send_header] of the library buffers nothing, so the
    response is the bare body, without any header. *)
Lemma cors_headers_on_every_response_counterexample :
  ~ (forall (w : World) (d : Path) (r : HTTP.request) (wire : list string),
       In (r, wire) (responses (trace (snd (run Serve.main w d)))) \/
       In (r, wire) (responses (trace (snd (run TestServe.main w d)))) ->
       Headers.cors_headers wire = true).
Proof.
  intros H.
  specialize (H (quiet ["serve.py"]%string) (slash [])
                {| HTTP.raw_requestline := ("GET /missing" ++ HTTP.CRLF)%string |}
                ["Not found"%string]).
  assert (E : Headers.cors_headers ["Not found"%string] = false) by reflexivity.
  rewrite E in H. discriminate H.
  left. vm_compute. right. left. reflexivity.
Qed.

(* ================================================================= *)
(** * The port that is bound *)

(** Once its bind succeeds, the serving block makes no other bind. *)
Lemma serve_block_binds (w : World) (C : HTTP.HandlerClass) (page : string)
    (port : Z) (s : state) :
  bindable w (clock s) port = true ->
  binds (trace (snd (serve_block w C page port s))) =
  (binds (trace s) ++ [(port, true, inl (bound_port w (clock s) port))])%list.
Proof.
  intros H. rewrite (serve_block_bindable w C page port s H).
  unfold block_outcome.
  destruct (browser w _) as [?|?|];
    [ destruct (serve_ends w) as [[| | | | |]|]
    | destruct (serve_ends w) as [[| | | | |]|] | ];
    unfold stopped, in_loop, at_browser, startup_log, loop_log;
    cbn [fst snd trace]; read_log; reflexivity.
Qed.

(** C4.  When the requested port [P] is free, [serve.py] makes one bind, of
    its listening socket, and the socket is bound to [P]; [test/serve.py]
    binds its listening socket to the first free port from [P] on within
    the ten candidates (the ports before it being refused), which is [P]
    itself when [P] is free. *)
Theorem main_binds_requested_port (w : World) (P : Z) (d : Path) :
  requested_port w = Some P ->
  ((forall t, port_free w t P = true) ->
   binds (trace (snd (run Serve.main w d))) = [(P, true, inl P)] /\
   binds (trace (snd (run TestServe.main w d))) =
     [(P, false, inl P); (P, true, inl P)]) /\
  (forall k : nat,
     (k < 10)%nat ->
     (forall t i, (i < k)%nat -> port_busy w t (P + Z.of_nat i) = true) ->
     (forall t, port_free w t (P + Z.of_nat k) = true) ->
     binds (trace (snd (run TestServe.main w d))) =
       (map (fun p => (p, false, inr OSError)) (candidates P 0 k) ++
        [(P + Z.of_nat k, false, inl (P + Z.of_nat k));
         (P + Z.of_nat k, true, inl (P + Z.of_nat k))])%list).
Proof.
  intros HP.
  assert (G : forall k : nat,
     (k < 10)%nat ->
     (forall t i, (i < k)%nat -> port_busy w t (P + Z.of_nat i) = true) ->
     (forall t, port_free w t (P + Z.of_nat k) = true) ->
     binds (trace (snd (run TestServe.main w d))) =
       (map (fun p => (p, false, inr OSError)) (candidates P 0 k) ++
        [(P + Z.of_nat k, false, inl (P + Z.of_nat k));
         (P + Z.of_nat k, true, inl (P + Z.of_nat k))])%list).
  { intros k Hk Hbusy Hfree. unfold run.
    rewrite TestServe_main_unfold, HP.
    rewrite (find_free_port_found w P (start d) k Hk).
    - rewrite serve_block_binds.
      + unfold probe_done. cbn [trace clock start].
        destruct (port_free_bindable w (0 + k) _ (Hfree (0 + k)%nat)) as [_ ->].
        destruct (port_free_bindable w (S (0 + k)) _ (Hfree (S (0 + k)))) as [_ ->].
        destruct (_ =? _); read_log; read_probe; cbn [app];
          now rewrite <- app_assoc.
      + unfold probe_done. cbn [clock].
        apply (port_free_bindable w _ _ (Hfree _)).
    - intros i Hi. apply Hbusy, Hi.
    - apply (port_free_bindable w _ _ (Hfree _)). }
  split; [|exact G].
  intros Hfree. split.
  - unfold run. rewrite Serve_main_unfold, HP.
    rewrite serve_block_binds.
    + cbn [trace clock start app binds flat_map].
      now destruct (port_free_bindable w 0 P (Hfree 0%nat)) as [_ ->].
    + apply (port_free_bindable w _ _ (Hfree _)).
  - specialize (G 0%nat ltac:(lia)). rewrite Z.add_0_r in G.
    apply G; [intros; lia | exact Hfree].
Qed.

(** Port 8080 is asked for and free; and port 80 is asked for while 80 and
    81 are taken and 82 is free. *)
Lemma main_binds_requested_port_witness :
  (binds (trace (snd (run Serve.main (quiet ["serve.py"; "8080"]%string)
                        (slash [])))) =
     [(8080, true, inl 8080)] /\
   binds (trace (snd (run TestServe.main (quiet ["serve.py"; "8080"]%string)
                        (slash [])))) =
     [(8080, false, inl 8080); (8080, true, inl 8080)]) /\
  binds (trace (snd (run TestServe.main
                       (crowded ["serve.py"; "80"]%string (fun _ p => p <? 82))
                       (slash [])))) =
    [(80, false, inr OSError); (81, false, inr OSError);
     (82, false, inl 82); (82, true, inl 82)].
Proof.
  split.
  - apply (proj1 (main_binds_requested_port (quiet ["serve.py"; "8080"]%string)
                    8080 (slash []) eq_refl)).
    intros t. reflexivity.
  - apply (proj2 (main_binds_requested_port
                    (crowded ["serve.py"; "80"]%string (fun _ p => p <? 82)) 80
                    (slash []) eq_refl) 2%nat).
    + lia.
    + intros t i Hi. destruct i as [|[|i]]; [reflexivity | reflexivity | lia].
    + intros t. reflexivity.
Defined.

(* ================================================================= *)
(** * Interrupt *)

(** A clean shutdown: [main()] returns, so the interpreter exits with
    status 0 and no exception is left unhandled; the last line printed is
    the shutdown message; the process listens on no socket any more. *)
Definition clean_shutdown (r : outcome unit * state) : Prop :=
  fst r = Returns tt /\
  exit_status (fst r) = Some 0 /\
  unhandled (fst r) = None /\
  last (printed (trace (snd r))) EmptyString =
    String (ascii_of_nat 10) "Server stopped." /\
  listening (snd r) = [].

Ltac shutdown_case :=
  let Hend := fresh "Hend" in
  let Hin := fresh "Hin" in
  intros Hend Hin;
  try discriminate Hend;
  try (exfalso; apply Hin; reflexivity);
  unfold clean_shutdown;
  cbn [fst snd exit_status unhandled trace listening start];
  repeat split; read_log; read_probe; reflexivity.

(** C5.  In every run of either script in which the serve loop was entered
    and [KeyboardInterrupt] is raised in it, [main()] catches it, prints the
    shutdown message last, closes the socket and returns: the process exits
    with status 0 and no exception is left unhandled. *)
Theorem interrupt_stops_cleanly (w : World) (d : Path) :
  serve_ends w = Some KeyboardInterrupt ->
  (serves (trace (snd (run Serve.main w d))) <> [] ->
   clean_shutdown (run Serve.main w d)) /\
  (serves (trace (snd (run TestServe.main w d))) <> [] ->
   clean_shutdown (run TestServe.main w d)).
Proof.
  intros Hend. split; revert Hend.
  - main_cases w d.
    + serve_block_cases; read_log; shutdown_case.
    + shutdown_case.
  - main_cases w d; read_log; read_probe; try shutdown_case.
    unfold probe_done.
    serve_block_cases; destruct (_ =? _); read_log; read_probe; shutdown_case.
Qed.

(** Ctrl+C on the quiet machine. *)
Lemma interrupt_stops_cleanly_witness :
  clean_shutdown (run Serve.main (quiet ["serve.py"]%string) (slash [])) /\
  clean_shutdown (run TestServe.main (quiet ["serve.py"]%string) (slash [])).
Proof.
  split.
  - apply (proj1 (interrupt_stops_cleanly (quiet ["serve.py"]%string) (slash [])
                    eq_refl)).
    vm_compute. intros H. discriminate H.
  - apply (proj2 (interrupt_stops_cleanly (quiet ["serve.py"]%string) (slash [])
                    eq_refl)).
    vm_compute. intros H. discriminate H.
Defined.

(* ================================================================= *)
(** * Browser launch *)

(** The world [w] where [webbrowser.open] does [b] instead. *)
Definition with_browser (w : World) (b : string -> outcome bool) : World :=
  {| argv := argv w;
     int_of_argument := int_of_argument w;
     script_file := script_file w;
     environ := environ w;
     bind_refused := bind_refused w;
     ephemeral_port := ephemeral_port w;
     browser := b;
     static_files := static_files w;
     version := version w;
     date := date w;
     incoming := incoming w;
     serve_ends := serve_ends w |}.

Lemma find_free_port_loop_browser (w : World) (b : string -> outcome bool)
    (ports : list Z) : forall s,
  TestServe.find_free_port_loop (with_browser w b) ports s =
  TestServe.find_free_port_loop w ports s.
Proof.
  induction ports as [|p ports IH]; intros s; [reflexivity|].
  cbn [TestServe.find_free_port_loop]. unfold try_except, with_TCPServer.
  change (TCPServer (with_browser w b)) with (TCPServer w).
  destruct (TCPServer w p None s) as [[srv|e|] s1]; reflexivity.
Qed.

(** Whatever a launch that comes back does, the serving block goes on in
    the same way. *)
Lemma serve_block_browser (w : World) (b1 b2 : outcome bool)
    (C : HTTP.HandlerClass) (page : string) (port : Z) (s : state) :
  b1 <> Blocks -> b2 <> Blocks ->
  serve_block (with_browser w (fun _ => b1)) C page port s =
  serve_block (with_browser w (fun _ => b2)) C page port s.
Proof.
  intros H1 H2.
  destruct (bind_cases w (clock s) port) as [Hbad|[Hbusy|Hfree]].
  - now rewrite !serve_block_invalid.
  - now rewrite !serve_block_busy.
  - rewrite !serve_block_bindable by exact Hfree.
    unfold block_outcome. cbn [browser with_browser serve_ends].
    destruct b1, b2; try reflexivity; congruence.
Qed.

Lemma main_browser (w : World) (d : Path) (b1 b2 : outcome bool) :
  b1 <> Blocks -> b2 <> Blocks ->
  run Serve.main (with_browser w (fun _ => b1)) d =
  run Serve.main (with_browser w (fun _ => b2)) d /\
  run TestServe.main (with_browser w (fun _ => b1)) d =
  run TestServe.main (with_browser w (fun _ => b2)) d.
Proof.
  intros H1 H2. unfold run. split.
  - rewrite !Serve_main_unfold.
    change (requested_port (with_browser w (fun _ => b1))) with (requested_port w).
    change (requested_port (with_browser w (fun _ => b2))) with (requested_port w).
    destruct (requested_port w) as [P|]; [|reflexivity].
    apply (serve_block_browser w b1 b2 _ _ _ _ H1 H2).
  - rewrite !TestServe_main_unfold.
    change (requested_port (with_browser w (fun _ => b1))) with (requested_port w).
    change (requested_port (with_browser w (fun _ => b2))) with (requested_port w).
    destruct (requested_port w) as [P|]; [|reflexivity].
    unfold TestServe.find_free_port. rewrite !find_free_port_loop_browser.
    destruct (TestServe.find_free_port_loop w _ _) as [[[port|]|e|] s1];
      try reflexivity.
    apply (serve_block_browser w b1 b2 _ _ _ _ H1 H2).
Qed.

(** C6.  A browser launch that fails, by raising any exception or by
    returning [False], changes nothing: the run of either script, its
    outcome, what it prints and logs, the sockets and the responses, is the
    run in which the launch succeeded. *)
Theorem browser_failure_suppressed (w : World) (d : Path) (e : exn) :
  run Serve.main (with_browser w (fun _ => Raises e)) d =
    run Serve.main (with_browser w (fun _ => Returns true)) d /\
  run TestServe.main (with_browser w (fun _ => Raises e)) d =
    run TestServe.main (with_browser w (fun _ => Returns true)) d /\
  run Serve.main (with_browser w (fun _ => Returns false)) d =
    run Serve.main (with_browser w (fun _ => Returns true)) d /\
  run TestServe.main (with_browser w (fun _ => Returns false)) d =
    run TestServe.main (with_browser w (fun _ => Returns true)) d.
Proof.
  destruct (main_browser w d (Raises e) (Returns true)) as [A B];
    try discriminate.
  destruct (main_browser w d (Returns false) (Returns true)) as [A' B'];
    try discriminate.
  auto.
Qed.

(* ================================================================= *)
(** * The command line *)







(* ================================================================= *)
(** * The working directory *)

(** The serving block changes no directory; if it enters the serve loop, it
    does so once, in the working directory it was started in, and answers
    the requests from there. *)
Lemma serve_block_log (w : World) (C : HTTP.HandlerClass) (page : string)
    (port : Z) (s : state) :
  exists l,
    trace (snd (serve_block w C page port s)) = (trace s ++ l)%list /\
    chdirs l = [] /\
    ((serves l = [] /\ responses l = []) \/
     (serves l = [(bound_port w (clock s) port, cwd s)] /\
      responses l =
        map (fun r => (r, HTTP.handle_one_request C (version w) (date w)
                            (cwd s) r))
          (incoming w))).
Proof.
  block_cases w port s; eexists; (split; [reflexivity|]); read_log;
    (split; [reflexivity|]); auto.
Qed.

(** The shape of the log of a run that serves from [target]: one directory
    change, to [target], before the serve loop and before any response; the
    loop runs in [target]; the responses are those of [C] from [target]. *)
Definition serves_from (w : World) (C : HTTP.HandlerClass) (target : Path)
    (tr : list event) : Prop :=
  exists before after,
    tr = (before ++ EvChdir target :: after)%list /\
    chdirs tr = [target] /\
    serves before = [] /\ responses before = [] /\
    (forall b dir, In (b, dir) (serves after) -> dir = target) /\
    responses after =
      map (fun r => (r, HTTP.handle_one_request C (version w) (date w)
                          target r))
        (incoming w).

Lemma block_serves_from (w : World) (C : HTTP.HandlerClass) (target : Path)
    (before l : list event) (b : Z) :
  chdirs before = [] -> serves before = [] -> responses before = [] ->
  chdirs l = [] ->
  ((serves l = [] /\ responses l = []) \/
   (serves l = [(b, target)] /\
    responses l =
      map (fun r => (r, HTTP.handle_one_request C (version w) (date w)
                          target r))
        (incoming w))) ->
  serves ((before ++ [EvChdir target]) ++ l) <> [] ->
  serves_from w C target ((before ++ [EvChdir target]) ++ l).
Proof.
  intros Hc Hs Hr Hcl [[Hsl Hrl]|[Hsl Hrl]] Hne.
  - exfalso. apply Hne. rewrite !serves_app, Hs, Hsl. reflexivity.
  - exists before, l. split; [now rewrite <- app_assoc|].
    split; [rewrite !chdirs_app, Hc, Hcl; reflexivity|].
    split; [exact Hs|]. split; [exact Hr|]. split; [|exact Hrl].
    intros b' dir. rewrite Hsl. intros [E|[]]. now inversion E.
Qed.

(** C8.  A run of either script that enters the serve loop has changed the
    working directory exactly once before, [serve.py] to the directory of
    the script and [test/serve.py] to the parent of that directory; the
    loop runs in that directory and the responses are made from it.  The
    handler class takes the reply to a request, that is the mapping of the
    request path to a file, unchanged from [SimpleHTTPRequestHandler]. *)
Theorem working_directory (w : World) (d : Path) :
  (serves (trace (snd (run Serve.main w d))) <> [] ->
   serves_from w (Serve.CORSRequestHandler (SimpleHTTPRequestHandler w))
     (parent (script_file w)) (trace (snd (run Serve.main w d)))) /\
  (serves (trace (snd (run TestServe.main w d))) <> [] ->
   serves_from w (TestServe.CORSRequestHandler (SimpleHTTPRequestHandler w))
     (parent (parent (script_file w)))
     (trace (snd (run TestServe.main w d)))) /\
  HTTP.cls_reply (Serve.CORSRequestHandler (SimpleHTTPRequestHandler w)) =
    static_files w /\
  HTTP.cls_reply (TestServe.CORSRequestHandler (SimpleHTTPRequestHandler w)) =
    static_files w.
Proof.
  split; [|split; [|split; reflexivity]].
  - main_cases w d; [|intros Hne; exfalso; apply Hne; reflexivity].
    match goal with
    | |- context [serve_block ?w ?C ?pg ?port ?s] =>
        destruct (serve_block_log w C pg port s) as (l & -> & Hc & Hs)
    end.
    cbn [trace start cwd] in *.
    eapply (block_serves_from w _ _ [] l); try reflexivity; eassumption.
  - main_cases w d; read_log; read_probe;
      try (intros Hne; exfalso; apply Hne; reflexivity).
    unfold probe_done.
    match goal with
    | |- context [serve_block ?w ?C ?pg ?port ?s] =>
        destruct (serve_block_log w C pg port s) as (l & -> & Hc & Hs)
    end.
    cbn [trace cwd] in *.
    rewrite (app_assoc _ _ [EvChdir _]).
    eapply block_serves_from; try eassumption;
      destruct (_ =? _); read_log; read_probe; reflexivity.
Qed.

(** Both scripts on the quiet machine, started from the script's folder
    [/repo/test]. *)
Lemma working_directory_witness :
  let w := quiet ["serve.py"]%string in
  serves_from w (Serve.CORSRequestHandler (SimpleHTTPRequestHandler w))
    (slash ["repo"; "test"]%string)
    (trace (snd (run Serve.main w (slash [])))) /\
  serves_from w (TestServe.CORSRequestHandler (SimpleHTTPRequestHandler w))
    (slash ["repo"]%string)
    (trace (snd (run TestServe.main w (slash [])))).
Proof.
  intros w. split.
  - apply (proj1 (working_directory w (slash []))).
    vm_compute. intros H. discriminate H.
  - apply (proj1 (proj2 (working_directory w (slash [])))).
    vm_compute. intros H. discriminate H.
Defined.

(* ================================================================= *)
(** * The gap between the probe and the serving bind *)

(** C9.  In [test/serve.py] the port that the probe found is not held: when
    the probe returns [port] it has closed its socket and the process
    listens on nothing, and [main] then binds [port] a second time, outside
    any [try].  If that bind is refused, the run ends with the uncaught
    [OSError] (exit status 1, traceback) after two binds of [port], the
    first successful, and the could-not-find-a-port message is not
    printed. *)
Theorem probe_does_not_hold_port (w : World) (P : Z) (d : Path) (k : nat) :
  requested_port w = Some P ->
  (k < 10)%nat ->
  (forall i, (i < k)%nat -> port_busy w i (P + Z.of_nat i) = true) ->
  bindable w k (P + Z.of_nat k) = true ->
  port_busy w (S k) (P + Z.of_nat k) = true ->
  fst (TestServe.find_free_port w P 10 (start d)) =
    Returns (Some (P + Z.of_nat k)) /\
  listening (snd (TestServe.find_free_port w P 10 (start d))) = [] /\
  fst (run TestServe.main w d) = Raises OSError /\
  unhandled (fst (run TestServe.main w d)) = Some OSError /\
  exit_status (fst (run TestServe.main w d)) = Some 1 /\
  binds (trace (snd (run TestServe.main w d))) =
    (map (fun p => (p, false, inr OSError)) (candidates P 0 k) ++
     [(P + Z.of_nat k, false, inl (bound_port w k (P + Z.of_nat k)));
      (P + Z.of_nat k, true, inr OSError)])%list /\
  ~ In ("Error: Could not find an available port starting from " ++ str P)%string
       (printed (trace (snd (run TestServe.main w d)))).
Proof.
  intros HP Hk Hbusy Hfree Hlate.
  pose proof (find_free_port_found w P (start d) k Hk Hbusy Hfree) as E.
  unfold run. rewrite TestServe_main_unfold, HP, E.
  cbn [fst snd listening start clock Nat.add].
  rewrite serve_block_busy by exact Hlate.
  cbn [fst snd unhandled exit_status trace refused probe_done].
  repeat split.
  - destruct (_ =? _); read_log; read_probe; cbn [app];
      now rewrite <- ?app_assoc.
  - destruct (P + Z.of_nat k =? P) eqn:Q; read_log; read_probe; cbn [In].
    + tauto.
    + intros [H|[]]. cbn [append] in H. discriminate H.
Qed.

(** Port 8080 is free for the probe and taken a moment later. *)
Lemma probe_does_not_hold_port_witness :
  let w := crowded ["serve.py"; "8080"]%string (fun t _ => (0 <? t)%nat) in
  fst (TestServe.find_free_port w 8080 10 (start (slash []))) =
    Returns (Some 8080) /\
  listening (snd (TestServe.find_free_port w 8080 10 (start (slash [])))) = [] /\
  fst (run TestServe.main w (slash [])) = Raises OSError /\
  unhandled (fst (run TestServe.main w (slash []))) = Some OSError /\
  exit_status (fst (run TestServe.main w (slash []))) = Some 1 /\
  binds (trace (snd (run TestServe.main w (slash [])))) =
    [(8080, false, inl 8080); (8080, true, inr OSError)] /\
  ~ In "Error: Could not find an available port starting from 8080"%string
       (printed (trace (snd (run TestServe.main w (slash []))))).
Proof.
  intros w.
  apply (probe_does_not_hold_port w 8080 (slash []) 0).
  - reflexivity.
  - lia.
  - intros i Hi. lia.
  - reflexivity.
  - reflexivity.
Defined.

(* ================================================================= *)
(** * An argument that is no integer *)

(** C10.  When the first command-line argument is there and [int] raises
    [ValueError] on it, [main()] of either script ends at once with this
    [ValueError] uncaught: the process exits with status 1, and it has probed no
    port, changed no directory, bound no socket and printed nothing (the
    state of the process is the one it started in). *)
Theorem bad_port_argument (w : World) (d : Path) (a0 a1 : string)
    (rest : list string) :
  argv w = a0 :: a1 :: rest ->
  int_of_argument w a1 = None ->
  run Serve.main w d = (Raises ValueError, start d) /\
  run TestServe.main w d = (Raises ValueError, start d) /\
  exit_status (fst (run Serve.main w d)) = Some 1 /\
  exit_status (fst (run TestServe.main w d)) = Some 1 /\
  trace (snd (run Serve.main w d)) = [] /\
  trace (snd (run TestServe.main w d)) = [].
Proof.
  intros Ha Hint.
  assert (HR : requested_port w = None).
  { unfold requested_port. rewrite Ha. exact Hint. }
  unfold run. rewrite Serve_main_unfold, TestServe_main_unfold, HR.
  repeat split.
Qed.

(** [python serve.py --port]: a flag is no integer. *)
Lemma bad_port_argument_witness :
  let w := quiet ["serve.py"; "--port"; "8080"]%string in
  run Serve.main w (slash []) = (Raises ValueError, start (slash [])) /\
  run TestServe.main w (slash []) = (Raises ValueError, start (slash [])) /\
  exit_status (fst (run Serve.main w (slash []))) = Some 1 /\
  exit_status (fst (run TestServe.main w (slash []))) = Some 1 /\
  trace (snd (run Serve.main w (slash []))) = [] /\
  trace (snd (run TestServe.main w (slash []))) = [].
Proof.
  intros w.
  apply (bad_port_argument w (slash []) "serve.py"%string "--port"%string
           ["8080"%string]); reflexivity.
Defined.

(* ================================================================= *)
(** * More about [find_free_port]: any start, any number of attempts *)

Section ProbeAnyBudget.

Variable w : World.

(** The loop over the candidates [a], [a+1], ..., [a+n-1] counted from [P],
    in each of its outcomes. *)
Lemma find_free_port_loop_outcome (P : Z) (n : nat) : forall (a : nat) (s : state),
  match fst (TestServe.find_free_port_loop w (candidates P a n) s) with
  | Returns (Some p) =>
      exists k, (k < n)%nat /\ p = P + Z.of_nat (a + k) /\
        bindable w (clock s + k) p = true /\
        forall i, (i < k)%nat ->
          port_busy w (clock s + i) (P + Z.of_nat (a + i)) = true
  | Returns None =>
      forall i, (i < n)%nat ->
        port_busy w (clock s + i) (P + Z.of_nat (a + i)) = true
  | Raises e =>
      e = OverflowError /\
      exists k, (k < n)%nat /\ valid_port (P + Z.of_nat (a + k)) = false /\
        forall i, (i < k)%nat ->
          port_busy w (clock s + i) (P + Z.of_nat (a + i)) = true
  | Blocks => False
  end.
Proof.
  induction n as [|n IH]; intros a s.
  - cbn. intros i Hi. lia.
  - rewrite candidates_S.
    destruct (bind_cases w (clock s) (P + Z.of_nat a)) as [Hbad|[Hbusy|Hfree]].
    + rewrite find_free_port_loop_invalid by exact Hbad. cbn [fst].
      split; [reflexivity|]. exists 0%nat.
      rewrite Nat.add_0_r. repeat split; [lia | exact Hbad | intros; lia].
    + rewrite find_free_port_loop_busy by exact Hbusy.
      specialize (IH (S a) (refused (P + Z.of_nat a) false OSError s)).
      assert (Shift : forall k,
         (forall i, (i < k)%nat ->
            port_busy w (clock (refused (P + Z.of_nat a) false OSError s) + i)
              (P + Z.of_nat (S a + i)) = true) ->
         forall i, (i < S k)%nat ->
           port_busy w (clock s + i) (P + Z.of_nat (a + i)) = true).
      { intros k H i Hi. destruct i as [|i].
        - now rewrite !Nat.add_0_r.
        - specialize (H i ltac:(lia)). cbn [clock refused] in H.
          replace (clock s + S i)%nat with (S (clock s) + i)%nat by lia.
          replace (a + S i)%nat with (S a + i)%nat by lia. exact H. }
      destruct (fst (TestServe.find_free_port_loop w (candidates P (S a) n) _))
        as [[p|]|e|].
      * destruct IH as (k & Hk & -> & Hb & Hpre). exists (S k).
        cbn [clock refused] in Hb.
        replace (clock s + S k)%nat with (S (clock s) + k)%nat by lia.
        replace (a + S k)%nat with (S a + k)%nat by lia.
        repeat split; [lia | exact Hb | exact (Shift k Hpre)].
      * exact (Shift n IH).
      * destruct IH as (-> & k & Hk & Hv & Hpre). split; [reflexivity|].
        exists (S k). replace (a + S k)%nat with (S a + k)%nat by lia.
        repeat split; [lia | exact Hv | exact (Shift k Hpre)].
      * exact IH.
    + rewrite find_free_port_loop_bindable by exact Hfree. cbn [fst].
      exists 0%nat. rewrite !Nat.add_0_r.
      repeat split; [lia | exact Hfree | intros; lia].
Qed.

(** What the loop leaves behind, whatever the binds do: it probed the first
    [n] candidates, created [n] sockets and closed each one it bound; it
    printed nothing and changed no directory. *)
Lemma find_free_port_loop_frame (ports : list Z) : forall s : state,
  exists n, (n <= List.length ports)%nat /\
    probed (trace (snd (TestServe.find_free_port_loop w ports s))) =
      (probed (trace s) ++ firstn n ports)%list /\
    clock (snd (TestServe.find_free_port_loop w ports s)) = (clock s + n)%nat /\
    listening (snd (TestServe.find_free_port_loop w ports s)) = listening s /\
    cwd (snd (TestServe.find_free_port_loop w ports s)) = cwd s /\
    printed (trace (snd (TestServe.find_free_port_loop w ports s))) =
      printed (trace s) /\
    chdirs (trace (snd (TestServe.find_free_port_loop w ports s))) =
      chdirs (trace s).
Proof.
  induction ports as [|p ports IH]; intros s.
  - exists 0%nat. cbn. rewrite app_nil_r, Nat.add_0_r. repeat split; lia.
  - destruct (bind_cases w (clock s) p) as [Hbad|[Hbusy|Hfree]].
    + rewrite find_free_port_loop_invalid by exact Hbad.
      exists 1%nat. cbn [snd refused trace clock listening cwd firstn List.length].
      read_log. repeat split; lia.
    + rewrite find_free_port_loop_busy by exact Hbusy.
      destruct (IH (refused p false OSError s)) as (n & Hn & Hp & Hc & Hl & Hd & Hpr & Hch).
      exists (S n). rewrite Hp, Hc, Hl, Hd, Hpr, Hch.
      cbn [refused trace clock listening cwd firstn List.length].
      read_log. rewrite <- app_assoc. cbn [app].
      repeat split; lia.
    + rewrite find_free_port_loop_bindable by exact Hfree.
      exists 1%nat.
      cbn [snd closed accepted trace clock listening cwd firstn List.length].
      rewrite remove_first_head. read_log. repeat split; lia.
Qed.

End ProbeAnyBudget.

(** [find_free_port(start, n)] for every start and every number of
    attempts, by its result.  A port [p] comes back only when [p] is a
    candidate [start + k] with [k < n], its bind succeeded, and the binds of
    all candidates before it were refused with [OSError]; [None] comes back
    only when the binds of all [n] candidates were refused; the only
    exception that leaves the function is the [OverflowError] of a
    candidate outside 0..65535 (never an [OSError]); the function always
    comes back. *)
Theorem find_free_port_outcome (w : World) (start_port max_attempts : Z)
    (s : state) :
  match fst (TestServe.find_free_port w start_port max_attempts s) with
  | Returns (Some p) =>
      exists k : nat, Z.of_nat k < max_attempts /\ p = start_port + Z.of_nat k /\
        bindable w (clock s + k) p = true /\
        forall i, (i < k)%nat ->
          port_busy w (clock s + i) (start_port + Z.of_nat i) = true
  | Returns None =>
      forall i : nat, Z.of_nat i < max_attempts ->
        port_busy w (clock s + i) (start_port + Z.of_nat i) = true
  | Raises e =>
      e = OverflowError /\
      exists k : nat, Z.of_nat k < max_attempts /\
        valid_port (start_port + Z.of_nat k) = false /\
        forall i, (i < k)%nat ->
          port_busy w (clock s + i) (start_port + Z.of_nat i) = true
  | Blocks => False
  end.
Proof.
  unfold TestServe.find_free_port. rewrite range_candidates.
  pose proof (find_free_port_loop_outcome w start_port
                (Z.to_nat max_attempts) 0 s) as H.
  cbn [Nat.add] in H.
  destruct (fst (TestServe.find_free_port_loop w _ s)) as [[p|]|e|].
  - destruct H as (k & Hk & Hp & Hb & Hpre). exists k.
    repeat split; [lia | exact Hp | exact Hb | exact Hpre].
  - intros i Hi. apply H. lia.
  - destruct H as (He & k & Hk & Hv & Hpre). split; [exact He|].
    exists k. repeat split; [lia | exact Hv | exact Hpre].
  - exact H.
Qed.

(** Whatever the binds do, [find_free_port(start, n)] creates at most [n]
    sockets, for the candidates [start], [start+1], ... in this order and
    each once; on the way out no socket of its own is left open, the
    working directory is the same, and nothing was printed. *)
Theorem find_free_port_frame (w : World) (start_port max_attempts : Z)
    (s : state) :
  let s' := snd (TestServe.find_free_port w start_port max_attempts s) in
  exists n : nat, Z.of_nat n <= Z.max 0 max_attempts /\
    probed (trace s') = (probed (trace s) ++ candidates start_port 0 n)%list /\
    clock s' = (clock s + n)%nat /\
    listening s' = listening s /\
    cwd s' = cwd s /\
    printed (trace s') = printed (trace s) /\
    chdirs (trace s') = chdirs (trace s).
Proof.
  unfold TestServe.find_free_port. rewrite range_candidates.
  destruct (find_free_port_loop_frame w
              (candidates start_port 0 (Z.to_nat max_attempts)) s)
    as (n & Hn & Hp & Hc & Hl & Hd & Hpr & Hch).
  rewrite candidates_length in Hn.
  exists n. cbn zeta. rewrite Hp, Hc, Hl, Hd, Hpr, Hch.
  assert (F : firstn n (candidates start_port 0 (Z.to_nat max_attempts)) =
              candidates start_port 0 n).
  { replace (Z.to_nat max_attempts) with (n + (Z.to_nat max_attempts - n))%nat
      by lia.
    rewrite candidates_app.
    rewrite <- (candidates_length start_port 0 n) at 1.
    now rewrite firstn_app, Nat.sub_diag, firstn_all, firstn_O, app_nil_r. }
  rewrite F. repeat split; lia.
Qed.

(** With no attempt allowed ([max_attempts <= 0]) the range is empty:
    [find_free_port] returns [None] at once and has touched nothing. *)
Theorem find_free_port_no_attempt (w : World) (start_port max_attempts : Z)
    (s : state) :
  max_attempts <= 0 ->
  TestServe.find_free_port w start_port max_attempts s = (Returns None, s).
Proof.
  intros H. unfold TestServe.find_free_port, range.
  replace (Z.to_nat (start_port + max_attempts - start_port)) with 0%nat by lia.
  reflexivity.
Qed.

Lemma find_free_port_no_attempt_witness :
  TestServe.find_free_port (quiet []) 8000 (-3) (start (slash [])) =
  (Returns None, start (slash [])).
Proof.
  apply (find_free_port_no_attempt (quiet []) 8000 (-3) (start (slash []))).
  lia.
Defined.

(* ================================================================= *)
(** * More about the runs of the scripts *)

(** The URLs that the browser was asked to open. *)
Definition opened (tr : list event) : list string :=
  flat_map (fun e => match e with EvBrowser u => [u] | _ => [] end) tr.

Lemma opened_app (a b : list event) : opened (a ++ b) = (opened a ++ opened b)%list.
Proof. apply flat_map_app. Qed.

Lemma answers_no_open (w : World) (C : HTTP.HandlerClass) (dir : Path) :
  opened (answers w C dir) = [].
Proof. unfold answers. induction (incoming w); [reflexivity | assumption]. Qed.

Lemma refusals_no_open (P : Z) (k : nat) : opened (refusals P k) = [].
Proof. unfold refusals. induction (candidates P 0 k); [reflexivity | assumption]. Qed.

Ltac read_opened :=
  repeat progress
    (rewrite ?opened_app;
     cbn [opened flat_map app trace start];
     fold_one opened;
     rewrite ?answers_no_open, ?refusals_no_open, ?app_nil_r).

(** What a script prints once its listening socket is bound to [port]: the
    two announcements; then, unless the browser launch never comes back, the
    hint about Ctrl+C; then, if the serve loop is interrupted, the shutdown
    line. *)
Definition console (w : World) (page : string) (port : Z) : list string :=
  [ ("Serving at http://localhost:" ++ str port ++ "/")%string;
    ("Open test page: http://localhost:" ++ str port ++ page)%string ] ++
  match browser w ("http://localhost:" ++ str port ++ page) with
  | Blocks => []
  | _ =>
      "Press Ctrl+C to stop the server"%string ::
      match serve_ends w with
      | Some KeyboardInterrupt => [String (ascii_of_nat 10) "Server stopped."]
      | _ => []
      end
  end.

Lemma serve_block_console (w : World) (C : HTTP.HandlerClass) (page : string)
    (port : Z) (s : state) :
  bindable w (clock s) port = true ->
  printed (trace (snd (serve_block w C page port s))) =
    (printed (trace s) ++ console w page port)%list /\
  opened (trace (snd (serve_block w C page port s))) =
    (opened (trace s) ++ [("http://localhost:" ++ str port ++ page)%string])%list.
Proof.
  intros H. rewrite (serve_block_bindable w C page port s H).
  unfold block_outcome, console.
  destruct (browser w _) as [?|?|];
    [ destruct (serve_ends w) as [[| | | | |]|]
    | destruct (serve_ends w) as [[| | | | |]|] | ];
    unfold stopped, in_loop, at_browser, startup_log, loop_log;
    cbn [fst snd trace]; split; read_log; read_opened; reflexivity.
Qed.

(** The console of a start that works.  [serve.py] whose port [P] binds
    prints exactly [console] for [P].  [test/serve.py] that finds candidate
    [P + k] after [k] refused ones, and binds it again, prints the same for
    [P + k], and before it, when and only when [k > 0], that [P] is in use
    and which port is used instead.  In both the browser is asked once, for
    the page of the bound port. *)
Theorem console_of_a_start (w : World) (P : Z) (d : Path) :
  requested_port w = Some P ->
  (bindable w 0 P = true ->
   printed (trace (snd (run Serve.main w d))) = console w "/test.html" P /\
   opened (trace (snd (run Serve.main w d))) =
     [("http://localhost:" ++ str P ++ "/test.html")%string]) /\
  (forall k : nat,
     (k < 10)%nat ->
     (forall i, (i < k)%nat -> port_busy w i (P + Z.of_nat i) = true) ->
     bindable w k (P + Z.of_nat k) = true ->
     bindable w (S k) (P + Z.of_nat k) = true ->
     printed (trace (snd (run TestServe.main w d))) =
       ((if (k =? 0)%nat then []
         else [("Port " ++ str P ++ " is in use, using port "
                  ++ str (P + Z.of_nat k) ++ " instead")%string]) ++
        console w "/test/test.html" (P + Z.of_nat k))%list /\
     opened (trace (snd (run TestServe.main w d))) =
       [("http://localhost:" ++ str (P + Z.of_nat k) ++ "/test/test.html")%string]).
Proof.
  intros HP. split.
  - intros Hfree. unfold run. rewrite Serve_main_unfold, HP.
    destruct (serve_block_console w
                (Serve.CORSRequestHandler (SimpleHTTPRequestHandler w))
                "/test.html" P
                {| clock := clock (start d); listening := listening (start d);
                   cwd := parent (script_file w);
                   trace := trace (start d) ++ [EvChdir (parent (script_file w))] |}
                Hfree) as [-> ->].
    split; reflexivity.
  - intros k Hk Hbusy Hfree Hagain. unfold run.
    rewrite TestServe_main_unfold, HP.
    rewrite (find_free_port_found w P (start d) k Hk Hbusy Hfree).
    destruct (serve_block_console w
                (TestServe.CORSRequestHandler (SimpleHTTPRequestHandler w))
                "/test/test.html" (P + Z.of_nat k)
                (probe_done w P (P + Z.of_nat k)
                   {| clock := S (clock (start d) + k);
                      listening := listening (start d);
                      cwd := cwd (start d);
                      trace := trace (start d) ++ refusals P k ++
                        [EvBind (P + Z.of_nat k) false
                           (inl (bound_port w (clock (start d) + k)
                                   (P + Z.of_nat k)));
                         EvClose (bound_port w (clock (start d) + k)
                                    (P + Z.of_nat k))] |})
                Hagain) as [-> ->].
    unfold probe_done. cbn [trace start].
    destruct k as [|k].
    + rewrite Z.add_0_r, Z.eqb_refl. cbn [Nat.eqb].
      split; read_log; read_probe; read_opened; reflexivity.
    + replace (P + Z.of_nat (S k) =? P) with false
        by (symmetry; apply Z.eqb_neq; lia).
      cbn [Nat.eqb].
      split; read_log; read_probe; read_opened; reflexivity.
Qed.

(** Port 80 is asked for; 80 and 81 are taken, 82 is free. *)
Lemma console_of_a_start_witness :
  let w := crowded ["serve.py"; "80"]%string (fun _ p => p <? 82) in
  printed (trace (snd (run TestServe.main w (slash [])))) =
    [ "Port 80 is in use, using port 82 instead";
      "Serving at http://localhost:82/";
      "Open test page: http://localhost:82/test/test.html";
      "Press Ctrl+C to stop the server";
      String (ascii_of_nat 10) "Server stopped." ]%string /\
  opened (trace (snd (run TestServe.main w (slash [])))) =
    ["http://localhost:82/test/test.html"%string].
Proof.
  intros w.
  apply (proj2 (console_of_a_start w 80 (slash []) eq_refl) 2%nat).
  - lia.
  - intros i Hi. destruct i as [|[|i]]; [reflexivity | reflexivity | lia].
  - reflexivity.
  - reflexivity.
Defined.

(** The sockets at the end of a run.  A run of either script that is over,
    by a return or by any exception, has closed every socket it bound; a
    run that goes on for ever listens on exactly one socket, the one it
    serves with. *)
Theorem sockets_released (w : World) (d : Path) :
  match fst (run Serve.main w d) with
  | Blocks =>
      exists port b, listening (snd (run Serve.main w d)) = [b] /\
        In (port, true, inl b) (binds (trace (snd (run Serve.main w d))))
  | _ => listening (snd (run Serve.main w d)) = []
  end /\
  match fst (run TestServe.main w d) with
  | Blocks =>
      exists port b, listening (snd (run TestServe.main w d)) = [b] /\
        In (port, true, inl b) (binds (trace (snd (run TestServe.main w d))))
  | _ => listening (snd (run TestServe.main w d)) = []
  end.
Proof.
  split.
  - main_cases w d; [|reflexivity].
    serve_block_cases; try reflexivity;
      (do 2 eexists; split; [reflexivity|]; read_log; cbn [In]; auto).
  - main_cases w d; try reflexivity.
    unfold probe_done.
    serve_block_cases; try reflexivity;
      (do 2 eexists; split; [reflexivity|];
       rewrite !binds_app; apply in_or_app; right;
       cbn [binds flat_map app In]; auto).
Qed.

(** [serve.py] when its port cannot be bound.  It has changed to the
    script's directory first, makes this one bind and no other, prints
    nothing, does not ask for the browser, and ends with the uncaught
    exception of the bind: [OSError] for a port number that the operating
    system refuses, [OverflowError] for a number outside 0..65535.  The
    exit status is 1. *)
Theorem Serve_main_cannot_bind (w : World) (P : Z) (d : Path) :
  requested_port w = Some P ->
  bindable w 0 P = false ->
  let e := if valid_port P then OSError else OverflowError in
  fst (run Serve.main w d) = Raises e /\
  exit_status (fst (run Serve.main w d)) = Some 1 /\
  trace (snd (run Serve.main w d)) =
    [EvChdir (parent (script_file w)); EvBind P true (inr e)] /\
  cwd (snd (run Serve.main w d)) = parent (script_file w) /\
  listening (snd (run Serve.main w d)) = [].
Proof.
  intros HP Hno. unfold run. rewrite Serve_main_unfold, HP.
  unfold bindable in Hno.
  destruct (valid_port P) eqn:Hv.
  - cbn [andb] in Hno. apply negb_false_iff in Hno.
    rewrite serve_block_busy
      by (unfold port_busy; cbn [clock start]; now rewrite Hv, Hno).
    repeat split.
  - rewrite serve_block_invalid by exact Hv. repeat split.
Qed.

Lemma Serve_main_cannot_bind_witness :
  let w := crowded ["serve.py"; "8080"]%string (fun _ _ => true) in
  fst (run Serve.main w (slash [])) = Raises OSError /\
  exit_status (fst (run Serve.main w (slash []))) = Some 1 /\
  trace (snd (run Serve.main w (slash []))) =
    [EvChdir (slash ["repo"; "test"]%string); EvBind 8080 true (inr OSError)] /\
  cwd (snd (run Serve.main w (slash []))) = slash ["repo"; "test"]%string /\
  listening (snd (run Serve.main w (slash []))) = [].
Proof.
  intros w.
  apply (Serve_main_cannot_bind w 8080 (slash [])); reflexivity.
Defined.

(** An exception in the serve loop that is no [KeyboardInterrupt] is not
    caught: a run of either script that entered the loop ends with this
    exception, without the shutdown line, and with its socket closed by the
    [with] block all the same. *)
Theorem serve_loop_exception_propagates (w : World) (d : Path) (e : exn) :
  serve_ends w = Some e ->
  e <> KeyboardInterrupt ->
  (serves (trace (snd (run Serve.main w d))) <> [] ->
   fst (run Serve.main w d) = Raises e /\
   listening (snd (run Serve.main w d)) = [] /\
   ~ In (String (ascii_of_nat 10) "Server stopped.")
        (printed (trace (snd (run Serve.main w d))))) /\
  (serves (trace (snd (run TestServe.main w d))) <> [] ->
   fst (run TestServe.main w d) = Raises e /\
   listening (snd (run TestServe.main w d)) = [] /\
   ~ In (String (ascii_of_nat 10) "Server stopped.")
        (printed (trace (snd (run TestServe.main w d))))).
Proof.
  intros Hend Hne.
  split; revert Hend Hne.
  - main_cases w d.
    + serve_block_cases; read_log; intros Hend Hne Hin;
        try (exfalso; apply Hin; reflexivity);
        try (exfalso; apply Hne; congruence);
        inversion Hend; subst;
        (split; [reflexivity|]; split; [reflexivity|]);
        cbn [In append]; intros [Q|[Q|[Q|[]]]]; discriminate Q.
    + intros _ _ Hin. exfalso. apply Hin. reflexivity.
  - main_cases w d; read_log; read_probe;
      try (intros _ _ Hin; exfalso; apply Hin; reflexivity).
    unfold probe_done.
    serve_block_cases; destruct (_ =? _); read_log; read_probe;
      intros Hend Hne Hin;
      try (exfalso; apply Hin; reflexivity);
      try (exfalso; apply Hne; congruence);
      inversion Hend; subst;
      (split; [reflexivity|]; split; [reflexivity|]);
      cbn [In append];
      intros Q; repeat (destruct Q as [Q|Q]; [discriminate Q|]); exact Q.
Qed.

Lemma serve_loop_exception_propagates_witness :
  let w := {| argv := ["serve.py"]%string;
              int_of_argument := py_int;
              script_file := script_file (quiet []);
              environ := [];
              bind_refused := fun _ _ => false;
              ephemeral_port := fun _ => 49152;
              browser := fun _ => Returns true;
              static_files := static_files (quiet []);
              version := version (quiet []);
              date := date (quiet []);
              incoming := [];
              serve_ends := Some OSError |} in
  fst (run Serve.main w (slash [])) = Raises OSError /\
  listening (snd (run Serve.main w (slash []))) = [] /\
  ~ In (String (ascii_of_nat 10) "Server stopped.")
       (printed (trace (snd (run Serve.main w (slash []))))).
Proof.
  intros w.
  apply (proj1 (serve_loop_exception_propagates w (slash []) OSError eq_refl
                  ltac:(discriminate))).
  vm_compute. intros H. discriminate H.
Defined.

(** When the scripts change directory.  [serve.py] changes to the script's
    directory as its first effect, before it creates its socket, whether
    the bind then works or not.  [test/serve.py] changes directory, to the
    project root, if and only if the probe has found a port; otherwise the
    process is still in the directory it was started in. *)
Theorem chdir_timing (w : World) (P : Z) (d : Path) :
  requested_port w = Some P ->
  (exists rest,
     trace (snd (run Serve.main w d)) =
       EvChdir (parent (script_file w)) :: rest) /\
  chdirs (trace (snd (run TestServe.main w d))) =
    match fst (TestServe.find_free_port w P 10 (start d)) with
    | Returns (Some _) => [parent (parent (script_file w))]
    | _ => []
    end /\
  cwd (snd (run TestServe.main w d)) =
    match fst (TestServe.find_free_port w P 10 (start d)) with
    | Returns (Some _) => parent (parent (script_file w))
    | _ => d
    end.
Proof.
  intros HP. unfold run. rewrite Serve_main_unfold, TestServe_main_unfold, HP.
  split.
  - match goal with
    | |- context [serve_block ?w ?C ?pg ?port ?s] =>
        destruct (serve_block_log w C pg port s) as (l & -> & _)
    end.
    exists l. reflexivity.
  - destruct (find_free_port_result w P (start d));
      cbn [fst snd trace start log clock listening cwd].
    + unfold probe_done.
      serve_block_cases; destruct (_ =? _); read_log; read_probe;
        split; reflexivity.
    + read_log; read_probe. split; reflexivity.
    + read_log; read_probe. split; reflexivity.
Qed.

Lemma chdir_timing_witness :
  let w := crowded ["serve.py"; "80"]%string (fun _ _ => true) in
  (exists rest,
     trace (snd (run Serve.main w (slash ["home"]%string))) =
       EvChdir (slash ["repo"; "test"]%string) :: rest) /\
  chdirs (trace (snd (run TestServe.main w (slash ["home"]%string)))) = [] /\
  cwd (snd (run TestServe.main w (slash ["home"]%string))) =
    slash ["home"]%string.
Proof.
  intros w.
  apply (chdir_timing w 80 (slash ["home"]%string)). reflexivity.
Defined.

(** The number of sockets.  A run of [serve.py] creates at most one socket
    and a run of [test/serve.py] at most eleven, ten for the probe and one
    to serve with, whatever happens. *)
Theorem socket_budget (w : World) (d : Path) :
  (List.length (binds (trace (snd (run Serve.main w d)))) <= 1)%nat /\
  (List.length (binds (trace (snd (run TestServe.main w d)))) <= 11)%nat /\
  (List.length (probed (trace (snd (run TestServe.main w d)))) <= 10)%nat.
Proof.
  split; [|split].
  - main_cases w d; [|cbn; lia].
    serve_block_cases; read_log; cbn [List.length]; lia.
  - main_cases w d; read_log; read_probe;
      rewrite ?length_app, ?length_map, ?candidates_length;
      cbn [List.length]; try lia.
    unfold probe_done.
    serve_block_cases; destruct (_ =? _); read_log; read_probe;
      rewrite ?length_app, ?length_map, ?candidates_length;
      cbn [List.length]; lia.
  - main_cases w d; read_log; read_probe;
      rewrite ?length_app, ?length_map, ?candidates_length;
      cbn [List.length]; try lia.
    unfold probe_done.
    serve_block_cases; destruct (_ =? _); read_log; read_probe;
      rewrite ?length_app, ?length_map, ?candidates_length;
      cbn [List.length]; lia.
Qed.

(* ================================================================= *)
(** * More about the header hook *)

Section Hook.

Import HTTP.
Import Headers.







(** What the three [send_header] calls of the hook do to the handler (the
    hook applied on top of a finalisation that does nothing): they append
    the three lines to the header buffer, or nothing for an HTTP/0.9
    request; they write nothing to the connection and leave the decision
    to close or keep the connection as it was. *)
Theorem hook_touches_buffer_only (h : handler) :
  let h' := Serve.end_headers (fun self => self) h in
  headers_buffer h' =
    (headers_buffer h ++ if has_headers h then cors_lines else [])%list /\
  wfile h' = wfile h /\
  close_connection h' = close_connection h /\
  request_version h' = request_version h.
Proof.
  cbn zeta. unfold Serve.end_headers, send_header, has_headers.
  change (String.eqb (lower "Access-Control-Allow-Origin") "connection")
    with false.
  change (String.eqb (lower "Access-Control-Allow-Methods") "connection")
    with false.
  change (String.eqb (lower "Access-Control-Allow-Headers") "connection")
    with false.
  cbv iota.
  destruct (negb (String.eqb (request_version h) "HTTP/0.9")) eqn:E;
    cbn [set_buffer request_version headers_buffer wfile close_connection].
  - rewrite !E.
    cbn [set_buffer request_version headers_buffer wfile close_connection].
    rewrite !E.
    cbn [set_buffer request_version headers_buffer wfile close_connection].
    unfold cors_lines, header_line. rewrite <- !app_assoc.
    repeat split.
  - rewrite !E. rewrite app_nil_r. repeat split.
Qed.

End Hook.

(* ================================================================= *)
(** * What the scripts never do *)

(** The browser is never asked before the listening socket is bound, and
    never twice: in every run of either script the browser was not asked at
    all, or it was asked once, for the page of the port that the listening
    socket was bound for. *)
Theorem browser_only_after_bind (w : World) (d : Path) :
  (opened (trace (snd (run Serve.main w d))) = [] \/
   exists port b,
     opened (trace (snd (run Serve.main w d))) =
       [("http://localhost:" ++ str port ++ "/test.html")%string] /\
     In (port, true, inl b) (binds (trace (snd (run Serve.main w d))))) /\
  (opened (trace (snd (run TestServe.main w d))) = [] \/
   exists port b,
     opened (trace (snd (run TestServe.main w d))) =
       [("http://localhost:" ++ str port ++ "/test/test.html")%string] /\
     In (port, true, inl b) (binds (trace (snd (run TestServe.main w d))))).
Proof.
  split.
  - main_cases w d; [|now left].
    serve_block_cases; read_opened;
      try (now left);
      (right; do 2 eexists; split; [reflexivity|]; read_log; cbn [In]; auto).
  - main_cases w d; read_opened; try (now left).
    unfold probe_done.
    serve_block_cases; destruct (_ =? _); read_opened;
      try (now left);
      (right; do 2 eexists; split; [reflexivity|];
       rewrite !binds_app; apply in_or_app; right;
       cbn [binds flat_map app In]; auto).
Qed.



(** The only normal end.  [main()] of either script returns, so that the
    process exits with status 0, only when the serve loop was entered and
    ended by [KeyboardInterrupt]; the shutdown line is then the last line
    printed. *)
Theorem normal_exit_only_by_interrupt (w : World) (d : Path) :
  (fst (run Serve.main w d) = Returns tt ->
   serve_ends w = Some KeyboardInterrupt /\
   serves (trace (snd (run Serve.main w d))) <> [] /\
   last (printed (trace (snd (run Serve.main w d)))) EmptyString =
     String (ascii_of_nat 10) "Server stopped.") /\
  (fst (run TestServe.main w d) = Returns tt ->
   serve_ends w = Some KeyboardInterrupt /\
   serves (trace (snd (run TestServe.main w d))) <> [] /\
   last (printed (trace (snd (run TestServe.main w d)))) EmptyString =
     String (ascii_of_nat 10) "Server stopped.").
Proof.
  split.
  - main_cases w d; [|intros Q; discriminate Q].
    serve_block_cases; intros Q; try discriminate Q;
      (split; [reflexivity|]); read_log;
      (split; [intros Q'; discriminate Q' | reflexivity]).
  - main_cases w d; try (intros Q; discriminate Q).
    unfold probe_done.
    serve_block_cases; destruct (_ =? _); intros Q; try discriminate Q;
      (split; [reflexivity|]); read_log; read_probe;
      (split; [intros Q'; discriminate Q' | reflexivity]).
Qed.

Lemma normal_exit_only_by_interrupt_witness :
  serve_ends (quiet ["serve.py"]%string) = Some KeyboardInterrupt /\
  serves (trace (snd (run Serve.main (quiet ["serve.py"]%string) (slash []))))
    <> [] /\
  last (printed (trace (snd (run Serve.main (quiet ["serve.py"]%string)
                               (slash []))))) EmptyString =
    String (ascii_of_nat 10) "Server stopped.".
Proof.
  apply (proj1 (normal_exit_only_by_interrupt (quiet ["serve.py"]%string)
                  (slash []))).
  reflexivity.
Defined.
